(** * aws-jwt-verify: the web implementation of the node-web compatibility layer

    A shallow embedding of [src/node-web-compat-web.ts] and the properties
    that its specification states about it, followed by the utilities
    with which the tests make keys and tokens ([generateKeyPair] and
    [signJwt]) and by further properties of both.

    Conventions of the embedding.
    - A JavaScript string is a Rocq [string]: a sequence of code units
      below 256.  The only larger code units that the code would treat
      specially (the line separators U+2028 and U+2029, which the regular
      expression [.] refuses) are outside this domain.
    - A JavaScript number is [NaN] or an integer ([jsnumber]): numbers
      with a fraction and the infinities are outside the domain of the
      embedding.  [undefined] is [None] where a value may be missing.
    - A synchronous call returns a [completion]: a value or a thrown error.
      A promise is given by the way it settles ([settle]): fulfilled,
      rejected, or never settled.
    - What the file calls but does not define is kept apart from the code
      under verification: the error classes of [./error.js], the text
      codecs and [crypto.subtle] are the members of an [Environment]; the
      host's [fetch], abort controllers and timers are modelled by a state
      [host], with time counted in milliseconds from the call. *)

From Stdlib Require Import ZArith Lia Ascii.
From stdpp Require Import base option list strings gmap pretty.

Open Scope Z_scope.

(** ** JavaScript values used by the file *)

(** Errors that can travel through this file.  [FetchError],
    [NonRetryableFetchError], [NotSupportedError] and
    [JwtInvalidSignatureAlgorithmError] are the classes imported from
    [./error.js], recorded with the arguments of their constructor.
    [TypeError] is the runtime's own error (reading a property of [null]).
    [HostError] stands for any error object that the host raises, with its
    [name] and [message].  [InvalidJwt] is the parse error of the
    specification's taxonomy; nothing in this file constructs it. *)
Inductive jserror : Type :=
| FetchError (uri msg : string)
| NonRetryableFetchError (uri msg : string)
| NotSupportedError (msg : string)
| JwtInvalidSignatureAlgorithmError (msg : string) (alg : option string)
| TypeError (msg : string)
| HostError (name msg : string)
| InvalidJwt (msg : string).

(** The outcome of a synchronous call. *)
Inductive completion (A : Type) : Type :=
| Return (a : A)
| Throw (e : jserror).
Arguments Return {A} a.
Arguments Throw {A} e.

(** The way a promise settles; [Pending] is a promise that never does. *)
Inductive settle (A : Type) : Type :=
| Fulfilled (a : A)
| Rejected (e : jserror)
| Pending.
Arguments Fulfilled {A} a.
Arguments Rejected {A} e.
Arguments Pending {A}.

(** [promise.then(f)] for a callback that does not throw. *)
Definition then_ {A B : Type} (p : settle A) (f : A -> B) : settle B :=
  match p with
  | Fulfilled a => Fulfilled (f a)
  | Rejected e => Rejected e
  | Pending => Pending
  end.

(** [Array.prototype.reduce] with the callback [(acc, item, index)]. *)
Fixpoint reduce {A B : Type} (f : B -> A -> nat -> B)
    (l : list A) (index : nat) (acc : B) : B :=
  match l with
  | [] => acc
  | item :: rest => reduce f rest (S index) (f acc item index)
  end.

(** 32-bit integer conversions of the bitwise operators, wrap-around
    written out. *)
Definition ToInt32 (n : Z) : Z :=
  let m := n mod 2 ^ 32 in if m <? 2 ^ 31 then m else m - 2 ^ 32.

(** A number or [undefined] as an operand of a bitwise operator:
    [undefined] converts to [NaN] and then to [0]. *)
Definition int32_operand (v : option Z) : Z :=
  match v with
  | Some n => ToInt32 n
  | None => 0
  end.

Definition js_shl (a : Z) (count : Z) : Z :=
  ToInt32 (Z.shiftl (ToInt32 a) (count mod 32)).
Definition js_shr (a : Z) (count : Z) : Z :=
  Z.shiftr (ToInt32 a) (count mod 32).
Definition js_or (a b : Z) : Z := Z.lor (ToInt32 a) (ToInt32 b).
Definition js_and (a b : Z) : Z := Z.land (ToInt32 a) (ToInt32 b).

(** Storing a number in a [Uint8Array] keeps it modulo 256. *)
Definition ToUint8 (n : Z) : Z := n mod 256.

(** [a[i] = v] on a [Uint8Array]: an index past the end is ignored, which
    is what the list update does. *)
Definition uint8_store (a : list Z) (i : nat) (v : Z) : list Z :=
  <[i := ToUint8 v]> a.

(** [new Uint8Array(len)]: [len] zeroes. *)
Definition new_Uint8Array (len : nat) : list Z := replicate len 0.

Definition charCode (c : ascii) : Z := Z.of_N (N_of_ascii c).

(** [s.charCodeAt(i)]; [None] is the [NaN] of an index past the end. *)
Definition charCodeAt (s : string) (i : nat) : option Z :=
  charCode <$> String.get i s.

(** [s.split("")]. *)
Definition split_chars (s : string) : list ascii :=
  String.list_ascii_of_string s.

(** ** Numbers and option values *)

(** A JavaScript number: [NaN] or an integer.  An integer up to [2 ^ 53]
    in absolute value is a number exactly; the larger ones stand for the
    numbers that have an integer value. *)
Inductive jsnumber : Type :=
| NaN
| Num (z : Z).

(** The conversion of a number to a boolean: [NaN] and [0] are falsy. *)
Definition truthy (n : jsnumber) : bool :=
  match n with
  | NaN => false
  | Num z => negb (z =? 0)
  end.

(** The identity of an [AbortController]; its signal carries the same
    identity. *)
Abbreviation controller := nat.

(** The values that request options hold. *)
Inductive jsval : Type :=
| VUndefined
| VNull
| VBool (b : bool)
| VNumber (n : jsnumber)
| VString (s : string)
| VSignal (c : controller)
| VBuffer (bytes : list Z).

(** [value?.[key]] on an object that may be [undefined]: a missing object
    and a missing key both give [undefined]. *)
Definition optional_member (object : option (gmap string jsval))
    (key : string) : jsval :=
  match object with
  | Some members => default VUndefined (members !! key)
  | None => VUndefined
  end.

(** [{ ...object }]: the members of the object, none for [undefined]. *)
Definition spread (object : option (gmap string jsval)) : gmap string jsval :=
  default ∅ object.

(** [s.slice(start)]. *)
Fixpoint slice (start : nat) (s : string) : string :=
  match start, s with
  | S n, String _ rest => slice n rest
  | _, _ => s
  end.

(** ** The environment of the file *)

(** A JSON Web Key, [SignatureJwk] of [jwk.js]: the members that this
    file reads, and the others by their name. *)
Module Jwk.
Record SignatureJwk : Type := {
  kty : string;
  alg : option string;
  crv : option string;
  members : gmap string string;
}.
End Jwk.
Abbreviation SignatureJwk := Jwk.SignatureJwk.

(** The key object of the host, an opaque handle. *)
Inductive CryptoKey : Type :=
| crypto_key (handle : nat).

Record CryptoKeyWithJwk : Type := {
  key : CryptoKey;
  jwk : SignatureJwk;
}.

(** The algorithm argument of [crypto.subtle.importKey]: an object
    [{ name, hash }], an object [{ name, namedCurve }], or a bare name. *)
Inductive ImportAlgorithm : Type :=
| ImportHashed (name hash : string)
| ImportCurve (name : string) (namedCurve : option string)
| ImportNamed (name : option string).

(** The algorithm argument of [crypto.subtle.verify]: an object [{ name }]
    or an object [{ name, hash }]. *)
Inductive VerifyAlgorithm : Type :=
| VerifyNamed (name : option string)
| VerifyHashed (name hash : string).

(** What the file uses and does not define: the [message] that the error
    classes of [./error.js] give their instances, the conversion of a
    string to a number, the text that the runtime prints for an integer
    beyond [2 ^ 53] (its shortest digits, in exponent form from [1e21]),
    the text codecs and [crypto.subtle]. *)
Class Environment : Type := {
  error_js_message : jserror → string;
  StringToNumber : string → jsnumber;
  NumberToString : Z → string;
  TextEncoder_encode : string → list Z;
  TextDecoder_decode : list Z → string;
  subtle_importKey :
    string → SignatureJwk → ImportAlgorithm → bool → list string
    → settle CryptoKey;
  subtle_verify :
    VerifyAlgorithm → CryptoKey → list Z → list Z → settle bool;
}.

Section WithEnvironment.
Context `{Environment}.

(** [err.message]. *)
Definition message (err : jserror) : string :=
  match err with
  | TypeError msg => msg
  | HostError _ msg => msg
  | _ => error_js_message err
  end.

(** A number inside a template literal.  An integer up to [2 ^ 53] in
    absolute value is printed with all its digits, in decimal; beyond,
    the digits are the runtime's. *)
Definition number_to_string (n : jsnumber) : string :=
  match n with
  | NaN => "NaN"
  | Num z => if decide (Z.abs z ≤ 2 ^ 53) then pretty z else NumberToString z
  end.

(** [Number(value)]. *)
Definition Number (value : jsval) : jsnumber :=
  match value with
  | VUndefined => NaN
  | VNull => Num 0
  | VBool b => Num (if b then 1 else 0)
  | VNumber n => n
  | VString s => StringToNumber s
  | VSignal _ => NaN
  | VBuffer _ => NaN
  end.

End WithEnvironment.

(** ** The host: transport, abort controllers and timers *)

(** An HTTP response as the file sees it: its status, and how the promise
    of [response.arrayBuffer()] settles. *)
Record Response : Type := {
  status : Z;
  arrayBuffer : settle (list Z);
}.

(** What the transport does with a request: it fails, or it answers with
    a status and goes on to transfer the body.  [body] tells when
    (milliseconds from the request) and how the transfer ends, with the
    bytes of the body or with an error; it is [None] for a transfer that
    never ends. *)
Inductive reply : Type :=
| NetworkError (err : jserror)
| Answer (status : Z) (body : option (Z * completion (list Z))).

(** The callback of a timer; the file has one shape of callback,
    [() => abort.abort(reason)]. *)
Inductive callback : Type :=
| AbortWith (abort : controller) (reason : jserror).

(** A timer: the time at which it fires, in milliseconds from now, and
    its callback. *)
Record timer : Type := {
  fires_at : Z;
  run : callback;
}.

(** The hosts on which the file runs: a browser, whose timers follow the
    HTML standard, and Node.js. *)
Inductive host_kind : Type :=
| Browser
| NodeJs.

(** The state of the host.  [network uri init] tells when (milliseconds
    from now) and how the transport settles a request, [None] when it
    never does.  [requests] is the log of the requests issued. *)
Record host : Type := {
  kind : host_kind;
  network : string → gmap string jsval → option (Z * reply);
  controllers : nat;
  timers : list timer;
  requests : list (string * gmap string jsval);
}.

(** A computation in the host. *)
Definition Eff (A : Type) : Type := host → A * host.

#[global] Instance Eff_ret : MRet Eff := fun A a h => (a, h).
#[global] Instance Eff_bind : MBind Eff :=
  fun A B f m h => let (a, h') := m h in f a h'.

(** [new AbortController()]. *)
Definition new_AbortController : Eff controller :=
  fun h =>
    (controllers h,
     {| kind := kind h; network := network h;
        controllers := S (controllers h);
        timers := timers h; requests := requests h |}).

(** The delay after which the host runs a timer.  A browser converts the
    delay to a 32-bit integer, wrap-around included ([NaN] to [0]), and
    takes a negative result as [0].  Node.js sets a delay that is not
    between [1] and [2 ^ 31 - 1], [NaN] included, to [1]. *)
Definition timer_delay (k : host_kind) (delay : jsnumber) : Z :=
  match k, delay with
  | Browser, NaN => 0
  | Browser, Num z => Z.max 0 (ToInt32 z)
  | NodeJs, NaN => 1
  | NodeJs, Num z => if decide (1 ≤ z ≤ 2 ^ 31 - 1) then z else 1
  end.

(** [setTimeout(callback, delay)]. *)
Definition setTimeout (cb : callback) (delay : jsnumber) : Eff unit :=
  fun h =>
    (tt,
     {| kind := kind h; network := network h; controllers := controllers h;
        timers :=
          timers h ++ [{| fires_at := timer_delay (kind h) delay; run := cb |}];
        requests := requests h |}).

(** The first abort of a controller among the timers: the time, and the
    reason given.  Of two timers for the same time the one set first
    runs first. *)
Definition first_abort (abort : controller) (ts : list timer)
    : option (Z * jserror) :=
  foldl
    (fun best t =>
       match run t with
       | AbortWith c reason =>
           if decide (c = abort) then
             match best with
             | Some (at_, _) =>
                 if fires_at t <? at_ then Some (fires_at t, reason) else best
             | None => Some (fires_at t, reason)
             end
           else best
       end)
    None ts.

(** The signal that a request listens to: the member [signal] of its
    options when that is the signal of a controller. *)
Definition request_signal (init : gmap string jsval) : option controller :=
  match init !! "signal" with
  | Some (VSignal c) => Some c
  | _ => None
  end.

(** A promise settled by the end of a transfer. *)
Definition settle_completion {A : Type} (c : completion A) : settle A :=
  match c with
  | Return a => Fulfilled a
  | Throw e => Rejected e
  end.

(** A promise of the host that waits for the transport and that an abort
    can end, after the Fetch standard.  [arrival] is what the transport
    delivers and when, [aborted] the abort of the signal that the request
    listens to, if there is one.  The promise settles on what arrives,
    unless the signal is aborted before then; it is then rejected with
    the reason of the abort. *)
Definition abortable {A B : Type} (aborted : option (Z * jserror))
    (arrival : option (Z * A)) (k : A → settle B) : settle B :=
  match aborted, arrival with
  | Some (aborted_at, reason), Some (arrives_at, a) =>
      if arrives_at <=? aborted_at then k a else Rejected reason
  | Some (_, reason), None => Rejected reason
  | None, Some (_, a) => k a
  | None, None => Pending
  end.

(** How the promise of the host's [fetch(uri, init)] settles: on the
    failure of the transport or on its answer, or on an abort that comes
    first.  The response of an answer reads its body from the same
    request: an abort that comes before the end of the transfer rejects
    [response.arrayBuffer()] as well. *)
Definition transport_outcome (h : host) (uri : string)
    (init : gmap string jsval) : settle Response :=
  let aborted :=
    request_signal init ≫= fun c => first_abort c (timers h) in
  abortable aborted (network h uri init)
    (fun r =>
       match r with
       | NetworkError err => Rejected err
       | Answer status body =>
           Fulfilled
             {| status := status;
                arrayBuffer := abortable aborted body settle_completion |}
       end).

(** [await fetch(uri, init)] of the host: the request is issued, and the
    caller resumes with the way its promise settles. *)
Definition host_fetch (uri : string) (init : gmap string jsval)
    : Eff (settle Response) :=
  fun h =>
    (transport_outcome h uri init,
     {| kind := kind h; network := network h; controllers := controllers h;
        timers := timers h; requests := requests h ++ [(uri, init)] |}).

(** ** The base64url decoder, [bufferFromBase64url] *)

Module B64.

Definition alphabet : string :=
  "ABCDEFGHIJKLMNOPQRSTUVWXYZabcdefghijklmnopqrstuvwxyz0123456789-_".

(** The lookup table of the closure: character code to index. *)
Definition map : gmap Z Z :=
  reduce (fun acc char index => <[charCode char := Z.of_nat index]> acc)
    (split_chars alphabet) 0%nat ∅.

(** [map[chunk.charCodeAt(i)]]: [undefined] for a code that is not a
    key, and for the [NaN] of a position past the end of the chunk. *)
Definition map_at (chunk : string) (i : nat) : option Z :=
  charCodeAt chunk i ≫= fun code => map !! code.

(** [/={1,2}$/]: the leftmost match is the last two characters when both
    are [=], else the last character when it is [=]. *)
Fixpoint strip_padding (s : string) : string :=
  match s with
  | String "=" EmptyString => EmptyString
  | String "=" (String "=" EmptyString) => EmptyString
  | String c rest => String c (strip_padding rest)
  | EmptyString => EmptyString
  end.

(** The regular expression [.] matches any code unit but a line
    terminator. *)
Definition is_line_terminator (c : ascii) : bool :=
  bool_decide (c = "010"%char) || bool_decide (c = "013"%char).

(** [s.match(/.{1,4}/g)], as the list of matches from left to right:
    every match is a maximal run of at most four characters without a
    line terminator.  [pending] holds the characters of the match that
    is being read. *)
Fixpoint match_chunks (pending : string) (s : string) : list string :=
  match s with
  | EmptyString =>
      match pending with EmptyString => [] | _ => [pending] end
  | String c rest =>
      if is_line_terminator c then
        match pending with
        | EmptyString => match_chunks EmptyString rest
        | _ => pending :: match_chunks EmptyString rest
        end
      else
        let pending := pending +:+ String c EmptyString in
        if decide (String.length pending = 4%nat)
        then pending :: match_chunks EmptyString rest
        else match_chunks pending rest
  end.

(** [String.prototype.match] with a global expression yields [null]
    when nothing matches. *)
Definition match_global (s : string) : option (list string) :=
  match match_chunks EmptyString s with
  | [] => None
  | chunks => Some chunks
  end.

(** The callback of the [reduce] over the chunks. *)
Definition decode_step (acc : list Z) (chunk : string) (index : nat)
    : list Z :=
  let first := int32_operand (map_at chunk 0) in
  let second := int32_operand (map_at chunk 1) in
  let third := int32_operand (map_at chunk 2) in
  let fourth := int32_operand (map_at chunk 3) in
  let acc := uint8_store acc (3 * index)
               (js_or (js_shl first 2) (js_shr second 4)) in
  let acc := uint8_store acc (3 * index + 1)
               (js_or (js_shl (js_and second 15) 4) (js_shr third 2)) in
  let acc := uint8_store acc (3 * index + 2)
               (js_or (js_shl (js_and third 3) 6) fourth) in
  acc.

End B64.

(** [new Uint8Array((base64url.length * 3) / 4)]: the length is the
    quotient truncated to an integer. *)
Definition decoded_length (base64url : string) : nat :=
  (String.length base64url * 3 / 4)%nat.

Definition bufferFromBase64url (base64url : string) : completion (list Z) :=
  let base64url := B64.strip_padding base64url in
  match B64.match_global base64url with
  | None =>
      Throw (TypeError "Cannot read properties of null (reading 'reduce')")
  | Some chunks =>
      Return (reduce B64.decode_step chunks 0%nat
                (new_Uint8Array (decoded_length base64url)))
  end.

(** ** The compatibility layer, [nodeWebCompat] *)

(** Enum to map supported JWT signature algorithms with WebCrypto curve
    names. *)
Definition NamedCurvesWebCrypto : gmap string string :=
  {[ "ES256" := "P-256"; "ES384" := "P-384"; "ES512" := "P-521" ]}%string.

(** The argument of [verifySignatureAsync]. *)
Record VerifyArgs : Type := {
  jwsSigningInput : string;
  keyObject : CryptoKeyWithJwk;
  signature : string;
  alg : string;
}.

Module nodeWebCompat.
Section WithEnvironment.
Context `{Environment}.

Definition fetch (uri : string)
    (requestOptions : option (gmap string jsval))
    (data : option (list Z)) : Eff (settle (list Z)) :=
  let responseTimeout :=
    Number (optional_member requestOptions "responseTimeout") in
  requestOptions ←
    (if truthy responseTimeout then
       abort ← new_AbortController;
       _ ← setTimeout
             (AbortWith abort
                (FetchError uri
                   ("Response time-out (after "
                    +:+ number_to_string responseTimeout +:+ " ms.)")))
             responseTimeout;
       (* { signal: abort.signal, ...requestOptions }: a member of the
          options replaces the signal; the union keeps its left operand *)
       mret (Some (spread requestOptions ∪ {[ "signal" := VSignal abort ]}))
     else mret requestOptions);
  (* await fetch(uri, { ...requestOptions, body: data }).catch(...) *)
  response ←
    host_fetch uri
      (<[ "body" := from_option VBuffer VUndefined data ]>
         (spread requestOptions));
  mret
    match response with
    | Rejected err => Rejected (FetchError uri (message err))
    | Pending => Pending
    | Fulfilled response =>
        if decide (status response ≠ 200) then
          Rejected
            (NonRetryableFetchError uri
               ("Status code is " +:+ pretty (status response)
                +:+ ", expected 200"))
        else arrayBuffer response
    end.

Record FetchTimeouts : Type := {
  response : Z;
}.

Definition defaultFetchTimeouts : FetchTimeouts :=
  {| response := 3000 |}.

Definition transformJwkToKeyObjectSync (jwk : SignatureJwk)
    (jwtHeaderAlg : option string) : completion CryptoKeyWithJwk :=
  Throw
    (NotSupportedError
       "Synchronously transforming a JWK into a key object is not supported in the browser").

(** [jwk.alg ?? jwtHeaderAlg]. *)
Definition effective_alg (jwk : SignatureJwk)
    (jwtHeaderAlg : option string) : option string :=
  match Jwk.alg jwk with
  | Some alg => Some alg
  | None => jwtHeaderAlg
  end.

(** The value of [const algIdentifier] in [transformJwkToKeyObjectAsync]. *)
Definition algIdentifier (alg : string) (jwk : SignatureJwk)
    : ImportAlgorithm :=
  if String.prefix "RS" alg then
    ImportHashed "RSASSA-PKCS1-v1_5" ("SHA-" +:+ slice 2 alg)
  else if String.prefix "ES" alg then
    ImportCurve "ECDSA" (NamedCurvesWebCrypto !! alg)
  else ImportNamed (Jwk.crv jwk).

Definition transformJwkToKeyObjectAsync (jwk : SignatureJwk)
    (jwtHeaderAlg : option string)
    : completion (settle CryptoKeyWithJwk) :=
  let alg := effective_alg jwk jwtHeaderAlg in
  match alg with
  | None | Some EmptyString =>
      Throw
        (JwtInvalidSignatureAlgorithmError
           "Missing alg on both JWK and JWT header" alg)
  | Some alg =>
      let algIdentifier := algIdentifier alg jwk in
      Return
        (then_ (subtle_importKey "jwk" jwk algIdentifier false ["verify"])
           (fun key => {| key := key; jwk := jwk |}))
  end.

Definition verifySignatureSync (args : VerifyArgs) : completion bool :=
  Throw
    (NotSupportedError
       "Synchronously verifying a JWT signature is not supported in the browser").

(** The first argument of [crypto.subtle.verify] in
    [verifySignatureAsync]. *)
Definition verify_algorithm (alg : string) (keyObject : CryptoKeyWithJwk)
    : VerifyAlgorithm :=
  if String.prefix "RS" alg then
    VerifyNamed (Some "RSASSA-PKCS1-v1_5")
  else if String.prefix "ES" alg then
    VerifyHashed "ECDSA" ("SHA-" +:+ slice 2 alg)
  else VerifyNamed (Jwk.crv (jwk keyObject)).

Definition verifySignatureAsync (args : VerifyArgs)
    : completion (settle bool) :=
  let algorithm := verify_algorithm (alg args) (keyObject args) in
  match bufferFromBase64url (signature args) with
  | Throw e => Throw e
  | Return signature =>
      Return
        (subtle_verify algorithm (key (keyObject args)) signature
           (TextEncoder_encode (jwsSigningInput args)))
  end.

Definition parseB64UrlString (b64 : string) : completion string :=
  match bufferFromBase64url b64 with
  | Throw e => Throw e
  | Return bytes => Return (TextDecoder_decode bytes)
  end.

Definition setTimeoutUnref : callback → jsnumber → Eff unit := setTimeout.

End WithEnvironment.
End nodeWebCompat.

(** * Definitions for the statements *)

(** ** The bytes of the chunks *)

(** The three bytes that one step of the decoder stores for a chunk. *)
Definition chunk_bytes (chunk : string) : list Z :=
  let first := int32_operand (B64.map_at chunk 0) in
  let second := int32_operand (B64.map_at chunk 1) in
  let third := int32_operand (B64.map_at chunk 2) in
  let fourth := int32_operand (B64.map_at chunk 3) in
  [ ToUint8 (js_or (js_shl first 2) (js_shr second 4));
    ToUint8 (js_or (js_shl (js_and second 15) 4) (js_shr third 2));
    ToUint8 (js_or (js_shl (js_and third 3) 6) fourth) ].

(** The bytes that the steps store for a list of chunks, in order. *)
Definition chunks_bytes (chunks : list string) : list Z :=
  concat (chunk_bytes <$> chunks).

(** ** The alphabet *)

(** The position of a character in a list of characters. *)
Fixpoint index_of (c : ascii) (l : list ascii) : option nat :=
  match l with
  | [] => None
  | x :: rest => if decide (x = c) then Some 0%nat else S <$> index_of c rest
  end.

(** A character of the base64url alphabet. *)
Definition base64url_char (c : ascii) : Prop :=
  is_Some (index_of c (split_chars B64.alphabet)).

(** A string made of characters of the alphabet only. *)
Definition base64url_string (s : string) : Prop :=
  Forall base64url_char (split_chars s).

(** A string that holds no line terminator. *)
Definition single_line (s : string) : Prop :=
  Forall (fun c => B64.is_line_terminator c = false) (split_chars s).

(** The 6-bit value that the decoder reads for a character. *)
Definition sextet (c : ascii) : Z := int32_operand (B64.map !! charCode c).

(** The value of a character by its position in the alphabet, and 0 for a
    character that is not in it. *)
Definition alphabet_value (c : ascii) : Z :=
  match index_of c (split_chars B64.alphabet) with
  | Some i => Z.of_nat i
  | None => 0
  end.

(** The character of a 6-bit value. *)
Definition alphabet_char (v : Z) : ascii :=
  nth (Z.to_nat v) (split_chars B64.alphabet) "A"%char.

(** The 6-bit values. *)
Definition below_64 : list Z := Z.of_nat <$> seq 0 64.

(** ** Base64 as the standard defines it (RFC 4648), on 6-bit values *)

(** Four 6-bit values give three bytes; a final group of three gives two
    bytes, of two gives one byte, and a single dangling value gives
    nothing. *)
Fixpoint rfc4648_decode (sextets : list Z) : list Z :=
  match sextets with
  | a :: b :: c :: d :: rest =>
      (a * 4 + b / 16) :: (b mod 16 * 16 + c / 4) :: (c mod 4 * 64 + d)
      :: rfc4648_decode rest
  | [a; b; c] => [a * 4 + b / 16; b mod 16 * 16 + c / 4]
  | [a; b] => [a * 4 + b / 16]
  | _ => []
  end.

(** Three bytes give four 6-bit values; a final group of two bytes gives
    three values and a final single byte gives two, with the missing bits
    taken as zero. *)
Fixpoint rfc4648_encode (bytes : list Z) : list Z :=
  match bytes with
  | x :: y :: z :: rest =>
      (x / 4) :: (x mod 4 * 16 + y / 16) :: (y mod 16 * 4 + z / 64)
      :: (z mod 64) :: rfc4648_encode rest
  | [x; y] => [x / 4; x mod 4 * 16 + y / 16; y mod 16 * 4]
  | [x] => [x / 4; x mod 4 * 16]
  | [] => []
  end.

(** A sequence of bytes. *)
Definition byte_sequence (bytes : list Z) : Prop :=
  Forall (fun x => 0 ≤ x < 256) bytes.

(** Modelled from the spec: the encoder [encodeBase64Url] of the
    round-trip property.  The repository has no encoder of its own (its
    tests use the runtime's); this is the unpadded base64url encoding of
    RFC 4648, section 5. *)
Definition encodeBase64Url (bytes : list Z) : string :=
  String.string_of_list_ascii (alphabet_char <$> rfc4648_encode bytes).

(** The bytes that the standard assigns to a text: its characters are
    read by their position in the alphabet.  A character that is not in
    the alphabet, to which the standard assigns nothing, is read as 0. *)
Definition base64url_bytes (s : string) : list Z :=
  rfc4648_decode (alphabet_value <$> split_chars s).

(** ** The host around a call of [fetch] *)

(** The host after [new AbortController()] and the [setTimeout] of the
    abort, for a timeout [n] of a call for [uri]. *)
Definition armed `{Environment} (uri : string) (n : jsnumber) (h : host)
    : host :=
  {| kind := kind h;
     network := network h;
     controllers := S (controllers h);
     timers :=
       timers h ++
       [{| fires_at := timer_delay (kind h) n;
           run :=
             AbortWith (controllers h)
               (FetchError uri
                  ("Response time-out (after " +:+ number_to_string n
                   +:+ " ms.)")) |}];
     requests := requests h |}.

(** The host after a request has been issued. *)
Definition issued (uri : string) (init : gmap string jsval) (h : host) : host :=
  {| kind := kind h; network := network h; controllers := controllers h;
     timers := timers h; requests := requests h ++ [(uri, init)] |}.

(** No timer of the host refers to a controller that does not exist yet. *)
Definition timers_refer_to_controllers (h : host) : Prop :=
  Forall (fun t => match run t with AbortWith c _ => (c < controllers h)%nat end)
    (timers h).

(** The transport settles within [d] milliseconds. *)
Definition arrives_within {A : Type} (d : Z) (arrival : option (Z * A))
    : Prop :=
  match arrival with
  | Some (settled_at, _) => settled_at ≤ d
  | None => False
  end.

Section Derived.
Context `{Environment}.

(** What a call of [fetch] makes of the way its request settles. *)
Definition settled (uri : string) (outcome : settle Response)
    : settle (list Z) :=
  match outcome with
  | Rejected err => Rejected (FetchError uri (message err))
  | Pending => Pending
  | Fulfilled response =>
      if decide (status response ≠ 200) then
        Rejected
          (NonRetryableFetchError uri
             ("Status code is " +:+ pretty (status response)
              +:+ ", expected 200"))
      else arrayBuffer response
  end.

(** What [verifySignatureAsync] does once the algorithm is chosen: the
    signature is decoded, and the host verifies it over the bytes of the
    signing input. *)
Definition verify_with (algorithm : VerifyAlgorithm) (args : VerifyArgs)
    : completion (settle bool) :=
  match bufferFromBase64url (signature args) with
  | Throw e => Throw e
  | Return signature =>
      Return
        (subtle_verify algorithm (key (keyObject args)) signature
           (TextEncoder_encode (jwsSigningInput args)))
  end.

(** What [transformJwkToKeyObjectAsync] does once the algorithm is
    chosen: the host imports the key for verification, and the key is
    returned with its JWK. *)
Definition import_with (algorithm : ImportAlgorithm) (jwk : SignatureJwk)
    : completion (settle CryptoKeyWithJwk) :=
  Return
    (then_ (subtle_importKey "jwk" jwk algorithm false ["verify"])
       (fun key => {| key := key; jwk := jwk |})).

End Derived.

(** ** An environment and hosts for the examples *)

(** An environment in which the message of an error is the text given to
    its constructor, no string converts to a number, an integer beyond
    [2 ^ 53] is printed as [1e+21], the text codecs map code units to
    bytes one to one, every key is imported and every signature is found
    valid. *)
Definition example_environment : Environment :=
  {| error_js_message err :=
       match err with
       | FetchError _ msg | NonRetryableFetchError _ msg
       | NotSupportedError msg | JwtInvalidSignatureAlgorithmError msg _
       | TypeError msg | HostError _ msg | InvalidJwt msg => msg
       end;
     StringToNumber _ := NaN;
     NumberToString _ := "1e+21";
     TextEncoder_encode s := charCode <$> split_chars s;
     TextDecoder_decode bytes :=
       String.string_of_list_ascii
         ((fun b => ascii_of_N (Z.to_N b)) <$> bytes);
     subtle_importKey _ _ _ _ _ := Fulfilled (crypto_key 0);
     subtle_verify _ _ _ _ := Fulfilled true |}.

(** A browser whose transport never settles a request.  One controller
    exists, the caller's; no timer is set. *)
Definition silent_host : host :=
  {| kind := Browser; network _ _ := None;
     controllers := 1; timers := []; requests := [] |}.

(** A browser whose transport answers every request after 20 ms, with a
    status and the transfer of a body. *)
Definition answering_host (status : Z)
    (body : option (Z * completion (list Z))) : host :=
  {| kind := Browser; network _ _ := Some (20, Answer status body);
     controllers := 0; timers := []; requests := [] |}.

(** A browser whose transport fails every request after 20 ms. *)
Definition failing_host (err : jserror) : host :=
  {| kind := Browser; network _ _ := Some (20, NetworkError err);
     controllers := 0; timers := []; requests := [] |}.

(** A key with its JWK, for the examples. *)
Definition example_jwk (alg crv : option string) : SignatureJwk :=
  {| Jwk.kty := "EC"; Jwk.alg := alg; Jwk.crv := crv; Jwk.members := ∅ |}.

Definition example_args (alg : string) (crv : option string) : VerifyArgs :=
  {| jwsSigningInput := "eyJhbGciOiJFUzI1NiJ9.e30";
     keyObject := {| key := crypto_key 0; jwk := example_jwk None crv |};
     signature := "TWFu";
     alg := alg |}.

(** Case analysis on the 256 characters. *)
Ltac each_ascii c :=
  let b0 := fresh in let b1 := fresh in let b2 := fresh in
  let b3 := fresh in let b4 := fresh in let b5 := fresh in
  let b6 := fresh in let b7 := fresh in
  destruct c as [b0 b1 b2 b3 b4 b5 b6 b7];
  destruct b0, b1, b2, b3, b4, b5, b6, b7.
(** * Definitions for further properties *)

(** A string made of line terminators only; the empty string is one. *)
Definition only_line_terminators (s : string) : Prop :=
  Forall (fun c => B64.is_line_terminator c = true) (split_chars s).

(** The padding that base64 puts after the encoding of [n] bytes
    (RFC 4648, section 4): [==] after a last group of one byte, [=] after
    a last group of two. *)
Definition base64_padding (n : nat) : string :=
  match (n mod 3)%nat with
  | 1%nat => "=="
  | 2%nat => "="
  | _ => ""
  end.

(** The name of the algorithm under which a key is imported, and under
    which a signature is verified. *)
Definition import_name (algorithm : ImportAlgorithm) : option string :=
  match algorithm with
  | ImportHashed name _ => Some name
  | ImportCurve name _ => Some name
  | ImportNamed name => name
  end.

Definition verify_name (algorithm : VerifyAlgorithm) : option string :=
  match algorithm with
  | VerifyNamed name => name
  | VerifyHashed name _ => Some name
  end.

(** The digest that an algorithm object names, if it names one. *)
Definition import_hash (algorithm : ImportAlgorithm) : option string :=
  match algorithm with
  | ImportHashed _ hash => Some hash
  | _ => None
  end.

Definition verify_hash (algorithm : VerifyAlgorithm) : option string :=
  match algorithm with
  | VerifyHashed _ hash => Some hash
  | _ => None
  end.

(** The error with which a call of [fetch] for [uri] aborts its request
    after a timeout [n]. *)
Definition timeout_error `{Environment} (uri : string) (n : jsnumber)
    : jserror :=
  FetchError uri
    ("Response time-out (after " +:+ number_to_string n +:+ " ms.)").

(** The request with the options [init] is not aborted by the time [t]:
    no timer among [ts] aborts the signal to which it listens at [t]
    milliseconds from now or earlier. *)
Definition unaborted (ts : list timer) (init : gmap string jsval) (t : Z)
    : Prop :=
  match request_signal init ≫= fun c => first_abort c ts with
  | Some (aborted_at, _) => t < aborted_at
  | None => True
  end.

(** The transport settles before [d] milliseconds have passed. *)
Definition arrives_before {A : Type} (d : Z) (arrival : option (Z * A))
    : Prop :=
  match arrival with
  | Some (settled_at, _) => settled_at < d
  | None => False
  end.

(** The transport has done with a request before [d] milliseconds have
    passed: it has failed, or it has answered with a status other than
    200, or it has answered with status 200 and the transfer of the body
    has ended as well. *)
Definition done_before (d : Z) (arrival : option (Z * reply)) : Prop :=
  match arrival with
  | Some (settled_at, NetworkError _) => settled_at < d
  | Some (settled_at, Answer status body) =>
      settled_at < d ∧ (status = 200 → arrives_before d body)
  | None => False
  end.

(** The options with which a call of [fetch] with a timeout issues its
    request in the host [h], and those of a call without. *)
Definition init_with_signal (requestOptions : option (gmap string jsval))
    (data : option (list Z)) (h : host) : gmap string jsval :=
  <[ "body" := from_option VBuffer VUndefined data ]>
    (spread requestOptions ∪ {[ "signal" := VSignal (controllers h) ]}).

Definition init_without_signal (requestOptions : option (gmap string jsval))
    (data : option (list Z)) : gmap string jsval :=
  <[ "body" := from_option VBuffer VUndefined data ]> (spread requestOptions).

(** * The utilities of the tests *)

(** [~a]. *)
Definition js_not (a : Z) : Z := Z.lnot (ToInt32 a).

(** A key object of the runtime of the tests, an opaque handle. *)
Inductive KeyObject : Type :=
| key_object (handle : nat).

(** The arguments of [generateKeyPairSync]: for ["rsa"] the length of the
    modulus and the public exponent, for ["ec"] the named curve. *)
Inductive KeyGeneration : Type :=
| GenerateRsa (modulusLength publicExponent : Z)
| GenerateEc (namedCurve : option string).

(** What the utilities use of the runtime they run on: the generation
    and the export of keys, [JSON.stringify] (the text of an object, as
    a function of its members: their order is left out), the bytes of a
    text ([Buffer.from]), the clock, and the signer
    ([createSign(digest)], [write], [end] and [sign] in one).  The
    generator, which draws its keys at random, is given by the keys that
    it draws for a request.  A buffer holds bytes, and the JSON text of
    an object is not empty. *)
Class TestRuntime : Type := {
  generateKeyPairSync : KeyGeneration → KeyObject * KeyObject;
  export_jwk : KeyObject → SignatureJwk;
  export_der : KeyObject → string → list Z;
  export_pem : KeyObject → string → string;
  JSON_stringify : gmap string jsval → string;
  Buffer_from : string → list Z;
  Date_now : Z;
  createSign_sign : option string → string → KeyObject → completion (list Z);
  Buffer_from_bytes : ∀ text, byte_sequence (Buffer_from text);
  JSON_stringify_text : ∀ object, Buffer_from (JSON_stringify object) ≠ [];
  createSign_sign_bytes :
    ∀ digest text key signature,
      createSign_sign digest text key = Return signature →
      byte_sequence signature;
}.

Module TestUtil.

(** A member of an options object that may be missing: [Missing] when
    the object has no such member, [Member v] when it has one, of value
    [v] or [undefined]. *)
Inductive member (A : Type) : Type :=
| Missing
| Member (v : option A).
Arguments Missing {A}.
Arguments Member {A} v.

(** ["k" in options]. *)
Definition has {A : Type} (m : member A) : bool :=
  match m with
  | Missing => false
  | Member _ => true
  end.

(** [options.k]. *)
Definition read {A : Type} (m : member A) : option A :=
  match m with
  | Missing => None
  | Member v => v
  end.

Inductive RsaAlg : Type := RS256 | RS384 | RS512.
Inductive EcAlg : Type := ES256 | ES384 | ES512.

Definition RsaAlg_name (a : RsaAlg) : string :=
  match a with RS256 => "RS256" | RS384 => "RS384" | RS512 => "RS512" end.

Definition EcAlg_name (a : EcAlg) : string :=
  match a with ES256 => "ES256" | ES384 => "ES384" | ES512 => "ES512" end.

(** The options of [generateKeyPair], of one of two shapes by [kty]. *)
Inductive KeyOptions : Type :=
| RsaOptions (alg : member RsaAlg) (kid use : member string)
| EcOptions (alg : member EcAlg) (kid use : member string).

Definition options_alg (options : KeyOptions) : member string :=
  match options with
  | RsaOptions alg _ _ =>
      match alg with
      | Missing => Missing
      | Member v => Member (RsaAlg_name <$> v)
      end
  | EcOptions alg _ _ =>
      match alg with
      | Missing => Missing
      | Member v => Member (EcAlg_name <$> v)
      end
  end.

Definition options_kid (options : KeyOptions) : member string :=
  match options with
  | RsaOptions _ kid _ => kid
  | EcOptions _ kid _ => kid
  end.

Definition options_use (options : KeyOptions) : member string :=
  match options with
  | RsaOptions _ _ use => use
  | EcOptions _ _ use => use
  end.

(** [options.kty === "RSA"]. *)
Definition is_rsa (options : KeyOptions) : bool :=
  match options with
  | RsaOptions _ _ _ => true
  | EcOptions _ _ _ => false
  end.

Record Jwks : Type := {
  keys : list SignatureJwk;
}.

(** RSA keypair with its various manifestations as properties, for use
    in automated tests. *)
Record KeyPair : Type := {
  publicKey : KeyObject;
  publicKeyDer : list Z;
  publicKeyPem : string;
  privateKey : KeyObject;
  privateKeyDer : list Z;
  privateKeyPem : string;
  jwks : Jwks;
  jwk : SignatureJwk;
}.

(** The curves of [generateKeyPair]. *)
Definition curves : gmap string string :=
  {[ "ES256" := "P-256"; "ES384" := "P-384"; "ES512" := "P-521" ]}%string.

(** The arguments with which [generateKeyPair] asks for keys. *)
Definition key_generation (options : KeyOptions) : KeyGeneration :=
  if is_rsa options then GenerateRsa 4096 65537
  else
    GenerateEc (curves !! default "ES256"%string (read (options_alg options))).

(** [jwk.alg = v] and [jwk[k] = v] for another member: a member set to
    [undefined] reads as a missing one does. *)
Definition set_alg (v : option string) (jwk : SignatureJwk) : SignatureJwk :=
  {| Jwk.kty := Jwk.kty jwk; Jwk.alg := v; Jwk.crv := Jwk.crv jwk;
     Jwk.members := Jwk.members jwk |}.

Definition set_member (k : string) (v : option string) (jwk : SignatureJwk)
    : SignatureJwk :=
  {| Jwk.kty := Jwk.kty jwk; Jwk.alg := Jwk.alg jwk; Jwk.crv := Jwk.crv jwk;
     Jwk.members :=
       match v with
       | Some s => <[k := s]> (Jwk.members jwk)
       | None => delete k (Jwk.members jwk)
       end |}.

(** Enum to map supported JWT signature algorithms with OpenSSL message
    digest algorithm names. *)
Definition JwtSignatureAlgorithms : gmap string string :=
  {[ "RS256" := "RSA-SHA256"; "RS384" := "RSA-SHA384";
     "RS512" := "RSA-SHA512"; "ES256" := "RSA-SHA256";
     "ES384" := "RSA-SHA384"; "ES512" := "RSA-SHA512" ]}%string.

(** [JwtSignatureAlgorithms[alg ?? "RS256"]]: the member of the name
    that [alg] is, [RS256] for [undefined] and [null]; a value that is
    no string names no member.  (The names that an object inherits are
    not modelled.) *)
Definition digest_of (alg : jsval) : option string :=
  match alg with
  | VUndefined | VNull => JwtSignatureAlgorithms !! "RS256"%string
  | VString name => JwtSignatureAlgorithms !! name
  | _ => None
  end.

(** [signature[0] = ~signature[0]]. *)
Definition swap_first_byte (signature : list Z) : list Z :=
  uint8_store signature 0 (js_not (int32_operand (signature !! 0%nat))).

Section WithRuntime.
Context `{TestRuntime}.

(** [Buffer.from(text).toString("base64url")]. *)
Definition base64url_of_text (text : string) : string :=
  encodeBase64Url (Buffer_from text).

Definition generateKeyPair (options : option KeyOptions) : KeyPair :=
  let options :=
    default (RsaOptions (Member (Some RS256)) Missing (Member (Some "sig")))
      options in
  let '(privateKey, publicKey) :=
    generateKeyPairSync (key_generation options) in
  let jwk := export_jwk publicKey in
  let jwk :=
    set_alg
      (if has (options_alg options) then read (options_alg options)
       else if is_rsa options then Some "RS256" else Some "ES256")
      jwk in
  let jwk :=
    set_member "kid"
      (if has (options_kid options) then read (options_kid options)
       else Some "testkid")
      jwk in
  let jwk :=
    set_member "use"
      (if has (options_use options) then read (options_use options)
       else Some "sig")
      jwk in
  {| publicKey := publicKey;
     publicKeyDer := export_der publicKey "spki";
     publicKeyPem := export_pem publicKey "spki";
     privateKey := privateKey;
     privateKeyDer := export_der privateKey "pkcs8";
     privateKeyPem := export_pem privateKey "pkcs8";
     jwks := {| keys := [jwk] |};
     jwk := jwk |}.

(** The header that [signJwt] signs: the header given, with [alg] set
    to [RS256] when it has no such member. *)
Definition signed_header (header : gmap string jsval) : gmap string jsval :=
  <[ "alg" := match header !! "alg" with
              | Some alg => alg
              | None => VString "RS256"
              end ]> header.

(** The payload that [signJwt] signs: the payload given, with [exp] set
    to a hundred seconds from now when it has no such member. *)
Definition signed_payload (payload : gmap string jsval)
    : gmap string jsval :=
  payload ∪ {[ "exp" := VNumber (Num (Date_now / 1000 + 100)) ]}.

(** The value of [const toSign]. *)
Definition toSign (header payload : gmap string jsval) : string :=
  base64url_of_text (JSON_stringify (signed_header header))
  +:+ "." +:+ base64url_of_text (JSON_stringify (signed_payload payload)).

(** Create a signed JWT with the given header and payload.  The
    signature algorithm is taken from the [alg] of the header, and is
    RS256 when there is none. *)
Definition signJwt (header payload : gmap string jsval)
    (privateKey : KeyObject) (produceValidSignature : option bool)
    : completion string :=
  let produceValidSignature := default true produceValidSignature in
  let toSign := toSign header payload in
  let digestFunction :=
    digest_of (default VUndefined (signed_header header !! "alg")) in
  match createSign_sign digestFunction toSign privateKey with
  | Throw e => Throw e
  | Return signature =>
      let signature :=
        if produceValidSignature then signature
        else swap_first_byte signature in
      Return (toSign +:+ "." +:+ encodeBase64Url signature)
  end.

End WithRuntime.
End TestUtil.

(** A runtime for the examples: every object has the JSON text of the
    empty object, the bytes of a text are its code units, and the signer
    returns the same three bytes whatever it signs. *)
Definition example_runtime : TestRuntime :=
  {| generateKeyPairSync _ := (key_object 0, key_object 1);
     export_jwk _ := example_jwk None None;
     export_der _ _ := [48];
     export_pem _ _ := "-----BEGIN-----";
     JSON_stringify _ := "{}";
     Buffer_from text := charCode <$> split_chars text;
     Date_now := 1700000000000;
     createSign_sign _ _ _ := Return [1; 2; 3];
     Buffer_from_bytes text :=
       ltac:(unfold byte_sequence, charCode;
             apply Forall_fmap, Forall_true; intros c; cbn;
             pose proof (N_ascii_bounded c); lia);
     JSON_stringify_text _ := ltac:(discriminate);
     createSign_sign_bytes _ _ _ signature :=
       ltac:(intros [= <-]; unfold byte_sequence;
             repeat (apply List.Forall_cons; [lia|]);
             apply List.Forall_nil) |}.

(** * Properties *)

(** ** The decoder on examples *)

Example decode_TWFu : bufferFromBase64url "TWFu" = Return [77; 97; 110].
Proof. vm_compute. reflexivity. Qed.
Example decode_TWE : bufferFromBase64url "TWE=" = Return [77; 97].
Proof. vm_compute. reflexivity. Qed.
Example decode_TQ : bufferFromBase64url "TQ==" = Return [77].
Proof. vm_compute. reflexivity. Qed.

(** ** The decoder writes the bytes of its chunks, cut at the buffer's end *)

Lemma chunks_bytes_cons chunk chunks :
  chunks_bytes (chunk :: chunks) = chunk_bytes chunk ++ chunks_bytes chunks.
Proof. reflexivity. Qed.

Lemma length_chunks_bytes chunks :
  length (chunks_bytes chunks) = (3 * length chunks)%nat.
Proof.
  unfold chunks_bytes. induction chunks as [|c cs IH]; [done|].
  rewrite fmap_cons, concat_cons, length_app, IH. simpl. lia.
Qed.

Lemma length_decode_step acc chunk index :
  length (B64.decode_step acc chunk index) = length acc.
Proof. unfold B64.decode_step, uint8_store. by rewrite !length_insert. Qed.

Lemma decode_step_lookup acc chunk index (i : nat) :
  B64.decode_step acc chunk index !! i =
  if decide (3 * index ≤ i < 3 * index + 3 ∧ i < length acc)%nat
  then chunk_bytes chunk !! (i - 3 * index)%nat
  else acc !! i.
Proof.
  unfold B64.decode_step, uint8_store, chunk_bytes.
  rewrite !list_lookup_insert, !length_insert.
  repeat case_decide; try lia; try done.
  - replace (i - 3 * index)%nat with 2%nat by lia. done.
  - replace (i - 3 * index)%nat with 1%nat by lia. done.
  - replace (i - 3 * index)%nat with 0%nat by lia. done.
Qed.

Lemma length_reduce_decode chunks index acc :
  length (reduce B64.decode_step chunks index acc) = length acc.
Proof.
  revert index acc. induction chunks as [|c cs IH]; intros; simpl; [done|].
  by rewrite IH, length_decode_step.
Qed.

Lemma reduce_decode_lookup chunks index acc (i : nat) :
  reduce B64.decode_step chunks index acc !! i =
  if decide (3 * index ≤ i < 3 * index + 3 * length chunks
             ∧ i < length acc)%nat
  then chunks_bytes chunks !! (i - 3 * index)%nat
  else acc !! i.
Proof.
  revert index acc.
  induction chunks as [|c cs IH]; intros index acc; cbn [reduce length].
  - case_decide; [lia|done].
  - rewrite IH, length_decode_step, decode_step_lookup.
    rewrite chunks_bytes_cons, lookup_app.
    assert (Hc : length (chunk_bytes c) = 3%nat) by done.
    repeat case_decide; try lia; try done.
    + rewrite (proj2 (lookup_ge_None (chunk_bytes c) _)) by lia.
      rewrite Hc. f_equal. lia.
    + destruct (chunk_bytes c !! (i - 3 * index)%nat) eqn:E; [done|].
      apply lookup_ge_None in E. lia.
Qed.

(** With a buffer no longer than three bytes a chunk, the decoder returns
    the bytes of the chunks up to the buffer's length: what a chunk writes
    beyond it is lost. *)
Lemma reduce_decode_take chunks (len : nat) :
  (len ≤ 3 * length chunks)%nat →
  reduce B64.decode_step chunks 0%nat (new_Uint8Array len) =
  take len (chunks_bytes chunks).
Proof.
  intros Hlen. apply list_eq; intros i.
  rewrite reduce_decode_lookup, lookup_take.
  unfold new_Uint8Array. rewrite length_replicate.
  repeat case_decide; try lia.
  - f_equal. lia.
  - apply lookup_ge_None. rewrite length_replicate. lia.
Qed.

(** ** The table of the decoder against the alphabet *)

Lemma sextet_alphabet_value c : sextet c = alphabet_value c.
Proof. each_ascii c; vm_compute; reflexivity. Qed.

Lemma sextet_range c : 0 ≤ sextet c < 64.
Proof. each_ascii c; vm_compute; split; congruence. Qed.

Lemma base64url_char_single_line c :
  base64url_char c → B64.is_line_terminator c = false.
Proof.
  unfold base64url_char.
  each_ascii c; vm_compute; first [reflexivity | intros [? [=]]].
Qed.

Lemma base64url_char_not_padding c : base64url_char c → c ≠ "="%char.
Proof. intros H ->. destruct H as [? [=]]. Qed.

Lemma base64url_string_single_line s : base64url_string s → single_line s.
Proof.
  unfold base64url_string, single_line. intros H.
  eapply Forall_impl; [exact H|]. apply base64url_char_single_line.
Qed.

(** ** The bit operations of a step against the arithmetic of base64 *)

Lemma elem_of_below_64 x : 0 ≤ x < 64 → x ∈ below_64.
Proof.
  intros Hx. unfold below_64. apply list_elem_of_fmap.
  exists (Z.to_nat x). split; [lia|].
  apply elem_of_seq. lia.
Qed.

(** A property of two sextets that holds on the whole table holds on any
    two sextets. *)
Lemma sextet_pairs (P : Z → Z → bool) :
  forallb (fun x => forallb (P x) below_64) below_64 = true →
  ∀ x y, 0 ≤ x < 64 → 0 ≤ y < 64 → P x y = true.
Proof.
  intros Hall x y Hx Hy.
  rewrite forallb_forall in Hall.
  specialize (Hall x (proj1 (list_elem_of_In _ _) (elem_of_below_64 x Hx))).
  rewrite forallb_forall in Hall.
  exact (Hall y (proj1 (list_elem_of_In _ _) (elem_of_below_64 y Hy))).
Qed.

Lemma first_byte x y :
  0 ≤ x < 64 → 0 ≤ y < 64 →
  ToUint8 (js_or (js_shl x 2) (js_shr y 4)) = x * 4 + y / 16.
Proof.
  intros Hx Hy. apply Z.eqb_eq.
  apply (sextet_pairs
    (fun x y =>
       ToUint8 (js_or (js_shl x 2) (js_shr y 4)) =? x * 4 + y / 16));
    [vm_compute; reflexivity | done | done].
Qed.

Lemma second_byte y z :
  0 ≤ y < 64 → 0 ≤ z < 64 →
  ToUint8 (js_or (js_shl (js_and y 15) 4) (js_shr z 2))
  = y mod 16 * 16 + z / 4.
Proof.
  intros Hy Hz. apply Z.eqb_eq.
  apply (sextet_pairs
    (fun y z =>
       ToUint8 (js_or (js_shl (js_and y 15) 4) (js_shr z 2))
       =? y mod 16 * 16 + z / 4));
    [vm_compute; reflexivity | done | done].
Qed.

Lemma third_byte z w :
  0 ≤ z < 64 → 0 ≤ w < 64 →
  ToUint8 (js_or (js_shl (js_and z 3) 6) w) = z mod 4 * 64 + w.
Proof.
  intros Hz Hw. apply Z.eqb_eq.
  apply (sextet_pairs
    (fun z w =>
       ToUint8 (js_or (js_shl (js_and z 3) 6) w) =? z mod 4 * 64 + w));
    [vm_compute; reflexivity | done | done].
Qed.

(** ** The encoder on examples *)

Example encode_Man : encodeBase64Url [77; 97; 110] = "TWFu".
Proof. reflexivity. Qed.
Example encode_Ma : encodeBase64Url [77; 97] = "TWE".
Proof. reflexivity. Qed.
Example encode_M : encodeBase64Url [77] = "TQ".
Proof. reflexivity. Qed.
Example encode_high : encodeBase64Url [251; 255; 254] = "-__-".
Proof. reflexivity. Qed.

(** ** The decoder on a string without line terminators *)

(** Induction on a string by groups of four characters. *)
Lemma string_by_four (P : string → Prop) :
  P EmptyString →
  (∀ a, P (String a EmptyString)) →
  (∀ a b, P (String a (String b EmptyString))) →
  (∀ a b c, P (String a (String b (String c EmptyString)))) →
  (∀ a b c d s, P s → P (String a (String b (String c (String d s))))) →
  ∀ s, P s.
Proof.
  intros H0 H1 H2 H3 H4 s.
  cut (P s ∧ (∀ a, P (String a s)) ∧ (∀ a b, P (String a (String b s)))
       ∧ (∀ a b c, P (String a (String b (String c s))))).
  { tauto. }
  induction s as [|x s (IH0 & IH1 & IH2 & IH3)]; [auto|].
  repeat split; auto.
Qed.

Lemma single_line_cons c s :
  single_line (String c s) ↔ B64.is_line_terminator c = false ∧ single_line s.
Proof.
  unfold single_line, split_chars. cbn [String.list_ascii_of_string].
  by rewrite Forall_cons.
Qed.

Lemma match_chunks_one a :
  B64.is_line_terminator a = false →
  B64.match_chunks EmptyString (String a EmptyString) = [String a EmptyString].
Proof. intros Ha. cbn [B64.match_chunks]. rewrite Ha. reflexivity. Qed.

Lemma match_chunks_two a b :
  B64.is_line_terminator a = false → B64.is_line_terminator b = false →
  B64.match_chunks EmptyString (String a (String b EmptyString))
  = [String a (String b EmptyString)].
Proof.
  intros Ha Hb. cbn [B64.match_chunks]. rewrite Ha, Hb. reflexivity.
Qed.

Lemma match_chunks_three a b c :
  B64.is_line_terminator a = false → B64.is_line_terminator b = false →
  B64.is_line_terminator c = false →
  B64.match_chunks EmptyString (String a (String b (String c EmptyString)))
  = [String a (String b (String c EmptyString))].
Proof.
  intros Ha Hb Hc. cbn [B64.match_chunks]. rewrite Ha, Hb, Hc. reflexivity.
Qed.

Lemma match_chunks_four a b c d s :
  B64.is_line_terminator a = false → B64.is_line_terminator b = false →
  B64.is_line_terminator c = false → B64.is_line_terminator d = false →
  B64.match_chunks EmptyString (String a (String b (String c (String d s))))
  = String a (String b (String c (String d EmptyString)))
    :: B64.match_chunks EmptyString s.
Proof.
  intros Ha Hb Hc Hd. cbn [B64.match_chunks]. rewrite Ha, Hb, Hc, Hd.
  reflexivity.
Qed.

Lemma chunk_bytes_sextets chunk :
  chunk_bytes chunk =
  let v i := from_option sextet 0 (String.get i chunk) in
  [ ToUint8 (js_or (js_shl (v 0%nat) 2) (js_shr (v 1%nat) 4));
    ToUint8 (js_or (js_shl (js_and (v 1%nat) 15) 4) (js_shr (v 2%nat) 2));
    ToUint8 (js_or (js_shl (js_and (v 2%nat) 3) 6) (v 3%nat)) ].
Proof.
  assert (Hv : ∀ i, int32_operand (B64.map_at chunk i)
                    = from_option sextet 0 (String.get i chunk)).
  { intros i. unfold B64.map_at, charCodeAt.
    destruct (String.get i chunk); reflexivity. }
  unfold chunk_bytes. cbv zeta. rewrite !Hv. reflexivity.
Qed.

Lemma decoded_length_four a b c d s :
  decoded_length (String a (String b (String c (String d s))))
  = (3 + decoded_length s)%nat.
Proof.
  unfold decoded_length. cbn [String.length].
  pose proof (Nat.div_mod_eq (String.length s * 3) 4).
  pose proof (Nat.div_mod_eq (S (S (S (S (String.length s)))) * 3) 4).
  pose proof (Nat.mod_upper_bound (String.length s * 3) 4).
  pose proof (Nat.mod_upper_bound (S (S (S (S (String.length s)))) * 3) 4).
  lia.
Qed.

(** On a string without line terminators the bytes kept by the decoder
    are the bytes of the standard, each character read as its sextet. *)
Lemma decode_chunks_spec s :
  single_line s →
  take (decoded_length s) (chunks_bytes (B64.match_chunks EmptyString s))
  = rfc4648_decode (sextet <$> split_chars s).
Proof.
  induction s as [|a|a b|a b c|a b c d s IH] using string_by_four;
    rewrite ?single_line_cons.
  - reflexivity.
  - reflexivity.
  - intros (Ha & Hb & _). rewrite match_chunks_two by done.
    unfold chunks_bytes. cbn [fmap list_fmap concat].
    rewrite chunk_bytes_sextets. cbn.
    rewrite first_byte by apply sextet_range. reflexivity.
  - intros (Ha & Hb & Hc & _). rewrite match_chunks_three by done.
    unfold chunks_bytes. cbn [fmap list_fmap concat].
    rewrite chunk_bytes_sextets. cbn.
    rewrite first_byte, second_byte by apply sextet_range. reflexivity.
  - intros (Ha & Hb & Hc & Hd & Hs). rewrite match_chunks_four by done.
    rewrite decoded_length_four, chunks_bytes_cons, chunk_bytes_sextets.
    cbn -[sextet ToUint8 js_or js_shl js_shr js_and decoded_length
          chunks_bytes B64.match_chunks Z.mul Z.div Z.modulo Z.add].
    rewrite first_byte, second_byte, third_byte by apply sextet_range.
    rewrite IH by done. reflexivity.
Qed.

Lemma decoded_length_chunks s :
  single_line s →
  (decoded_length s ≤ 3 * length (B64.match_chunks EmptyString s))%nat.
Proof.
  induction s as [|a|a b|a b c|a b c d s IH] using string_by_four;
    rewrite ?single_line_cons.
  - done.
  - intros (Ha & _). rewrite match_chunks_one by done. cbn. lia.
  - intros (Ha & Hb & _). rewrite match_chunks_two by done. cbn. lia.
  - intros (Ha & Hb & Hc & _). rewrite match_chunks_three by done.
    cbn. lia.
  - intros (Ha & Hb & Hc & Hd & Hs). rewrite match_chunks_four by done.
    rewrite decoded_length_four. cbn [length]. specialize (IH Hs). lia.
Qed.

Lemma match_chunks_pending pending s :
  pending ≠ EmptyString → B64.match_chunks pending s ≠ [].
Proof.
  revert pending. induction s as [|c s IH]; intros pending Hp; cbn.
  - by destruct pending.
  - destruct (B64.is_line_terminator c).
    + by destruct pending.
    + case_decide; [done|]. apply IH. by destruct pending.
Qed.

(** A string that has a character and no line terminator has a match. *)
Lemma match_global_single_line s :
  s ≠ EmptyString → single_line s →
  B64.match_global s = Some (B64.match_chunks EmptyString s).
Proof.
  intros Hne Hs. unfold B64.match_global.
  destruct (B64.match_chunks EmptyString s) eqn:E; [|done].
  exfalso. destruct s as [|c s]; [done|].
  apply single_line_cons in Hs as [Hc _].
  cbn in E. rewrite Hc in E. revert E. case_decide; [done|].
  by apply match_chunks_pending.
Qed.

(** The decoder on any input whose text before the padding has a
    character and no line terminator: the bytes of the standard, every
    character read as its sextet. *)
Lemma bufferFromBase64url_single_line s :
  B64.strip_padding s ≠ EmptyString → single_line (B64.strip_padding s) →
  bufferFromBase64url s
  = Return (rfc4648_decode (sextet <$> split_chars (B64.strip_padding s))).
Proof.
  intros Hne Hs. unfold bufferFromBase64url. cbv zeta.
  rewrite match_global_single_line by done.
  rewrite reduce_decode_take by by apply decoded_length_chunks.
  by rewrite decode_chunks_spec.
Qed.

Lemma append_empty_r s : s +:+ "" = s.
Proof.
  induction s as [|c s IH]; [done|].
  change (String c (s +:+ "") = String c s). by rewrite IH.
Qed.

(** Padding: one or two [=] after a text without [=] are removed. *)
Lemma strip_padding_unpadded s :
  Forall (fun c => c ≠ "="%char) (split_chars s) →
  B64.strip_padding s = s
  ∧ B64.strip_padding (s +:+ "=") = s
  ∧ B64.strip_padding (s +:+ "==") = s.
Proof.
  induction s as [|c s IH]; [done|].
  unfold split_chars. cbn [String.list_ascii_of_string].
  intros [Hc Hs]%Forall_cons. destruct (IH Hs) as (IH0 & IH1 & IH2).
  assert (Hstep : ∀ t u, B64.strip_padding t = u →
                    B64.strip_padding (String c t) = String c u).
  { intros t u <-. cbn [B64.strip_padding].
    destruct c as [[] [] [] [] [] [] [] []]; try done. }
  repeat split; apply Hstep; done.
Qed.

Lemma base64url_string_unpadded s :
  base64url_string s → Forall (fun c => c ≠ "="%char) (split_chars s).
Proof.
  intros H. eapply Forall_impl; [exact H|].
  apply base64url_char_not_padding.
Qed.

Lemma sextets_alphabet s :
  sextet <$> split_chars s = alphabet_value <$> split_chars s.
Proof. apply list_fmap_ext. intros ? c _. apply sextet_alphabet_value. Qed.

(** The decoder on a text of the alphabet, with or without padding. *)
Lemma bufferFromBase64url_alphabet body pad :
  body ≠ EmptyString → base64url_string body →
  pad = EmptyString ∨ pad = "="%string ∨ pad = "=="%string →
  bufferFromBase64url (body +:+ pad) = Return (base64url_bytes body).
Proof.
  intros Hne Hbody Hpad.
  destruct (strip_padding_unpadded body) as (H0 & H1 & H2);
    [by apply base64url_string_unpadded|].
  assert (Hstrip : B64.strip_padding (body +:+ pad) = body).
  { destruct Hpad as [-> | [-> | ->]]; [|done|done].
    by rewrite append_empty_r. }
  rewrite bufferFromBase64url_single_line; rewrite Hstrip; try done.
  - unfold base64url_bytes. by rewrite sextets_alphabet.
  - by apply base64url_string_single_line.
Qed.

(** ** Encoding, and decoding what was encoded *)

(** Induction on a list by groups of three elements. *)
Lemma list_by_three {A : Type} (P : list A → Prop) :
  P [] → (∀ x, P [x]) → (∀ x y, P [x; y]) →
  (∀ x y z l, P l → P (x :: y :: z :: l)) →
  ∀ l, P l.
Proof.
  intros H0 H1 H2 H3 l.
  cut (P l ∧ (∀ x, P (x :: l)) ∧ (∀ x y, P (x :: y :: l))); [tauto|].
  induction l as [|a l (IH0 & IH1 & IH2)]; [auto|].
  repeat split; auto.
Qed.

Lemma sextet_values (P : Z → bool) :
  forallb P below_64 = true → ∀ v, 0 ≤ v < 64 → P v = true.
Proof.
  intros Hall v Hv. rewrite forallb_forall in Hall.
  exact (Hall v (proj1 (list_elem_of_In _ _) (elem_of_below_64 v Hv))).
Qed.

Lemma alphabet_value_char v :
  0 ≤ v < 64 → alphabet_value (alphabet_char v) = v.
Proof.
  intros Hv. apply Z.eqb_eq.
  apply (sextet_values (fun v => alphabet_value (alphabet_char v) =? v));
    [vm_compute; reflexivity | done].
Qed.

Lemma alphabet_char_base64url v :
  0 ≤ v < 64 → base64url_char (alphabet_char v).
Proof.
  intros Hv. unfold base64url_char.
  pose proof (alphabet_value_char v Hv) as Hval.
  unfold alphabet_value in Hval.
  destruct (index_of (alphabet_char v) (split_chars B64.alphabet)) eqn:E;
    [by eexists|].
  (* the value 0 is the value of the character at position 0 *)
  subst v. revert E. vm_compute. discriminate.
Qed.

Lemma rfc4648_encode_range bytes :
  byte_sequence bytes → Forall (fun v => 0 ≤ v < 64) (rfc4648_encode bytes).
Proof.
  unfold byte_sequence.
  induction bytes as [|x|x y|x y z l IH] using list_by_three;
    rewrite ?Forall_cons; cbn [rfc4648_encode].
  - done.
  - intros [Hx _]. repeat constructor;
      Z.div_mod_to_equations; lia.
  - intros (Hx & Hy & _). repeat constructor;
      Z.div_mod_to_equations; lia.
  - intros (Hx & Hy & Hz & Hl). rewrite !Forall_cons.
    repeat split; try (Z.div_mod_to_equations; lia). by apply IH.
Qed.

Lemma rfc4648_decode_encode bytes :
  byte_sequence bytes → rfc4648_decode (rfc4648_encode bytes) = bytes.
Proof.
  unfold byte_sequence.
  induction bytes as [|x|x y|x y z l IH] using list_by_three;
    rewrite ?Forall_cons; cbn [rfc4648_encode rfc4648_decode].
  - done.
  - intros [Hx _]. f_equal. Z.div_mod_to_equations; lia.
  - intros (Hx & Hy & _). repeat f_equal; Z.div_mod_to_equations; lia.
  - intros (Hx & Hy & Hz & Hl). rewrite (IH Hl).
    repeat f_equal; Z.div_mod_to_equations; lia.
Qed.

Lemma split_chars_encode bytes :
  split_chars (encodeBase64Url bytes) = alphabet_char <$> rfc4648_encode bytes.
Proof.
  unfold split_chars, encodeBase64Url.
  apply String.list_ascii_of_string_of_list_ascii.
Qed.

Lemma encodeBase64Url_alphabet bytes :
  byte_sequence bytes → base64url_string (encodeBase64Url bytes).
Proof.
  intros Hb. unfold base64url_string. rewrite split_chars_encode.
  apply Forall_fmap. eapply Forall_impl; [by apply rfc4648_encode_range|].
  intros v Hv. by apply alphabet_char_base64url.
Qed.

Lemma encodeBase64Url_nonempty bytes :
  bytes ≠ [] → encodeBase64Url bytes ≠ EmptyString.
Proof.
  intros Hne E. apply (f_equal split_chars) in E.
  rewrite split_chars_encode in E.
  destruct bytes as [|x [|y [|z l]]]; done.
Qed.

Lemma base64url_bytes_encode bytes :
  byte_sequence bytes → base64url_bytes (encodeBase64Url bytes) = bytes.
Proof.
  intros Hb. unfold base64url_bytes.
  rewrite split_chars_encode, <- list_fmap_compose.
  rewrite <- (rfc4648_decode_encode bytes Hb) at 2. f_equal.
  rewrite <- (list_fmap_id (rfc4648_encode bytes)) at 2.
  apply Forall_fmap_ext. eapply Forall_impl; [by apply rfc4648_encode_range|].
  intros v Hv. by apply alphabet_value_char.
Qed.

(** ** The decoder: what it accepts, and what it returns *)

Lemma length_match_chunks s :
  single_line s →
  length (B64.match_chunks EmptyString s) = ((String.length s + 3) / 4)%nat.
Proof.
  induction s as [|a|a b|a b c|a b c d s IH] using string_by_four;
    rewrite ?single_line_cons.
  - done.
  - intros (Ha & _). by rewrite match_chunks_one.
  - intros (Ha & Hb & _). by rewrite match_chunks_two.
  - intros (Ha & Hb & Hc & _). by rewrite match_chunks_three.
  - intros (Ha & Hb & Hc & Hd & Hs). rewrite match_chunks_four by done.
    cbn [length String.length]. rewrite (IH Hs).
    replace (S (S (S (S (String.length s)))) + 3)%nat
      with (String.length s + 3 + 1 * 4)%nat by lia.
    rewrite Nat.div_add by done. lia.
Qed.

(** C3, as the code has it.  The decoder never fails with [InvalidJwt]:
    it does not check its input.  It removes one or two [=] at the end,
    and on a text of the alphabet that has a character it returns the
    decoded bytes; on any text without line terminator that has a
    character it returns the bytes that result from reading every other
    character as 0, and a last character left over by the groups of four
    is dropped. *)
Theorem decoder_unchecked :
  (∀ s msg, bufferFromBase64url s ≠ Throw (InvalidJwt msg))
  ∧ (∀ body pad,
       body ≠ EmptyString → base64url_string body →
       pad = EmptyString ∨ pad = "="%string ∨ pad = "=="%string →
       bufferFromBase64url (body +:+ pad) = Return (base64url_bytes body))
  ∧ (∀ s,
       B64.strip_padding s ≠ EmptyString →
       single_line (B64.strip_padding s) →
       bufferFromBase64url s
       = Return (base64url_bytes (B64.strip_padding s))).
Proof.
  repeat split.
  - intros s msg. unfold bufferFromBase64url. cbv zeta.
    by destruct (B64.match_global _).
  - intros body pad. apply bufferFromBase64url_alphabet.
  - intros s Hne Hs. rewrite bufferFromBase64url_single_line by done.
    unfold base64url_bytes. by rewrite sextets_alphabet.
Qed.

(** X25.  The round trip of the decoder: a sequence of bytes that is not
    empty is what the decoder returns for its unpadded base64url
    encoding. *)
Theorem decode_encode bytes :
  bytes ≠ [] → byte_sequence bytes →
  bufferFromBase64url (encodeBase64Url bytes) = Return bytes.
Proof.
  intros Hne Hb.
  rewrite <- (append_empty_r (encodeBase64Url bytes)).
  rewrite bufferFromBase64url_alphabet.
  - by rewrite base64url_bytes_encode.
  - by apply encodeBase64Url_nonempty.
  - by apply encodeBase64Url_alphabet.
  - by left.
Qed.

(** C9.  On an input whose text before the padding is made of
    characters of the alphabet, has a character, and has a length [n]
    with [n mod 4] other than 1, the decoder returns [3 * n / 4] bytes
    (the quotient rounded down): the first bytes of those that the
    chunks write, three for every chunk; the bytes that the last chunk
    writes beyond that length are lost. *)
Theorem decoded_bytes_length s :
  let body := B64.strip_padding s in
  let n := String.length body in
  body ≠ EmptyString → base64url_string body → (n mod 4 ≠ 1)%nat →
  ∃ bytes,
    bufferFromBase64url s = Return bytes
    ∧ length bytes = (3 * n / 4)%nat
    ∧ bytes = take (3 * n / 4) (chunks_bytes (B64.match_chunks EmptyString body))
    ∧ length (chunks_bytes (B64.match_chunks EmptyString body))
      = (3 * ((n + 3) / 4))%nat.
Proof.
  intros body n Hne Hbody _.
  pose proof (base64url_string_single_line body Hbody) as Hline.
  pose proof (decoded_length_chunks body Hline) as Hle.
  assert (Hlen : decoded_length body = (3 * n / 4)%nat).
  { unfold decoded_length, n. f_equal. lia. }
  eexists. unfold bufferFromBase64url. cbv zeta. fold body.
  rewrite match_global_single_line by done.
  rewrite reduce_decode_take by done. rewrite Hlen in *.
  repeat split.
  - rewrite length_take, length_chunks_bytes. lia.
  - by rewrite length_chunks_bytes, length_match_chunks.
Qed.

(** ** The fetch of the compatibility layer *)

Section Fetch.
Context `{Environment}.

Lemma fetch_truthy uri requestOptions data h :
  let n := Number (optional_member requestOptions "responseTimeout") in
  let init := <[ "body" := from_option VBuffer VUndefined data ]>
                (spread requestOptions
                 ∪ {[ "signal" := VSignal (controllers h) ]}) in
  truthy n = true →
  nodeWebCompat.fetch uri requestOptions data h
  = (settled uri (transport_outcome (armed uri n h) uri init),
     issued uri init (armed uri n h)).
Proof.
  intros n init Htruthy. unfold nodeWebCompat.fetch. fold n.
  rewrite Htruthy. reflexivity.
Qed.

Lemma fetch_falsy uri requestOptions data h :
  let n := Number (optional_member requestOptions "responseTimeout") in
  let init := <[ "body" := from_option VBuffer VUndefined data ]>
                (spread requestOptions) in
  truthy n = false →
  nodeWebCompat.fetch uri requestOptions data h
  = (settled uri (transport_outcome h uri init), issued uri init h).
Proof.
  intros n init Hfalsy. unfold nodeWebCompat.fetch. fold n.
  rewrite Hfalsy. reflexivity.
Qed.


(** How the promise of a request that is not aborted settles: as the
    transport does. *)
Lemma transport_outcome_unaborted h uri init settled_at r :
  network h uri init = Some (settled_at, r) →
  unaborted (timers h) init settled_at →
  transport_outcome h uri init
  = match r with
    | NetworkError err => Rejected err
    | Answer status body =>
        Fulfilled
          {| status := status;
             arrayBuffer :=
               abortable
                 (request_signal init ≫= fun c => first_abort c (timers h))
                 body settle_completion |}
    end.
Proof.
  intros Hnet Hearly. unfold transport_outcome, unaborted in *.
  rewrite Hnet.
  destruct (request_signal init ≫= _) as [[aborted_at reason]|]; [|done].
  unfold abortable at 1.
  by destruct (Z.leb_spec settled_at aborted_at); [|lia].
Qed.

Lemma read_body_unaborted ts init read_at (c : completion (list Z)) :
  unaborted ts init read_at →
  abortable (request_signal init ≫= fun abort => first_abort abort ts)
    (Some (read_at, c)) settle_completion
  = settle_completion c.
Proof.
  unfold unaborted.
  destruct (request_signal init ≫= _) as [[aborted_at reason]|]; [|done].
  intros Hearly. unfold abortable.
  by destruct (Z.leb_spec read_at aborted_at); [|lia].
Qed.

(** X24.  Every call issues one request to the host and sets at most one
    timer, its own.  As long as no timer has aborted the request by the
    time the transport settles it, the outcome of
    the call follows what the transport does with that request: when the
    transport fails with an error, the call fails with a [FetchError]
    that carries the URI and the message of that error; when the
    transport answers with a status other than 200, the call fails with
    a [NonRetryableFetchError]; when the status is 200 and the body is
    transferred, the call returns the bytes of the body, and when the
    transfer fails, the call fails with the error of the transfer as it
    is. *)
Theorem fetch_follows_transport uri requestOptions data h :
  let n := Number (optional_member requestOptions "responseTimeout") in
  let call := nodeWebCompat.fetch uri requestOptions data h in
  ∃ init,
    requests call.2 = requests h ++ [(uri, init)]
    ∧ network call.2 = network h
    ∧ timers call.2
      = timers h
        ++ (if truthy n then
              [{| fires_at := timer_delay (kind h) n;
                  run := AbortWith (controllers h) (timeout_error uri n) |}]
            else [])
    ∧ ∀ settled_at r,
        network h uri init = Some (settled_at, r) →
        unaborted (timers call.2) init settled_at →
        match r with
        | NetworkError err =>
            call.1 = Rejected (FetchError uri (message err))
        | Answer status body =>
            if decide (status = 200) then
              ∀ read_at c,
                body = Some (read_at, c) →
                unaborted (timers call.2) init read_at →
                call.1 = match c with
                         | Return bytes => Fulfilled bytes
                         | Throw err => Rejected err
                         end
            else
              call.1
              = Rejected
                  (NonRetryableFetchError uri
                     ("Status code is " +:+ pretty status
                      +:+ ", expected 200"))
        end.
Proof.
  cbv zeta.
  assert (Hcases : ∃ h1 init,
    nodeWebCompat.fetch uri requestOptions data h
    = (settled uri (transport_outcome h1 uri init), issued uri init h1)
    ∧ network h1 = network h
    ∧ requests h1 = requests h
    ∧ timers h1
      = timers h
        ++ (if truthy (Number (optional_member requestOptions "responseTimeout"))
            then
              [{| fires_at :=
                    timer_delay (kind h)
                      (Number (optional_member requestOptions "responseTimeout"));
                  run :=
                    AbortWith (controllers h)
                      (timeout_error uri
                         (Number
                            (optional_member requestOptions "responseTimeout")))
               |}]
            else [])).
  { destruct (truthy (Number (optional_member requestOptions "responseTimeout")))
      eqn:Hn.
    - eexists _, _. split; [by apply fetch_truthy|]. done.
    - eexists _, _. split; [by apply fetch_falsy|].
      by rewrite app_nil_r. }
  destruct Hcases as (h1 & init & -> & Hnet & Hreq & Htimers).
  cbn [fst snd]. exists init.
  change (timers (issued uri init h1)) with (timers h1).
  change (network (issued uri init h1)) with (network h1).
  change (requests (issued uri init h1)) with (requests h1 ++ [(uri, init)]).
  rewrite Hreq. repeat (split; [done|]).
  intros settled_at r Hr Hearly. rewrite <- Hnet in Hr.
  rewrite (transport_outcome_unaborted h1 uri init settled_at r Hr Hearly).
  destruct r as [err|code body]; [done|].
  cbn [settled status arrayBuffer].
  destruct (decide (code = 200)) as [->|Hcode].
  - intros read_at c -> Hread. rewrite decide_False by (intros ?; done).
    rewrite read_body_unaborted by done. by destruct c.
  - by rewrite decide_True.
Qed.

End Fetch.

(** ** Timeouts of the fetch *)

Lemma first_abort_none abort ts :
  Forall (fun t => match run t with AbortWith c _ => c ≠ abort end) ts →
  first_abort abort ts = None.
Proof.
  unfold first_abort. induction ts as [|t ts IH] using rev_ind; [done|].
  intros [Hts Ht]%Forall_app. rewrite foldl_app, (IH Hts). cbn.
  rewrite Forall_singleton in Ht. destruct (run t) as [c reason].
  by rewrite decide_False.
Qed.

Lemma first_abort_new abort ts at_ reason :
  Forall (fun t => match run t with AbortWith c _ => c ≠ abort end) ts →
  first_abort abort (ts ++ [{| fires_at := at_; run := AbortWith abort reason |}])
  = Some (at_, reason).
Proof.
  intros Hts. pose proof (first_abort_none abort ts Hts) as Hnone.
  unfold first_abort in *. rewrite foldl_app, Hnone. cbn.
  by rewrite decide_True.
Qed.

Lemma timers_refer_fresh h :
  timers_refer_to_controllers h →
  Forall (fun t => match run t with AbortWith c _ => c ≠ controllers h end)
    (timers h).
Proof.
  unfold timers_refer_to_controllers. intros Hh.
  eapply Forall_impl; [exact Hh|]. intros t. cbn. destruct (run t). lia.
Qed.

Lemma ToInt32_le d : 0 ≤ d → ToInt32 d ≤ d.
Proof.
  intros Hd. unfold ToInt32.
  pose proof (Z.mod_le d (2 ^ 32) Hd ltac:(lia)) as Hle. cbv zeta.
  destruct (Z.ltb_spec (d mod 2 ^ 32) (2 ^ 31)); lia.
Qed.

(** A delay between 1 and [2 ^ 31 - 1] is the delay that the host keeps. *)
Lemma timer_delay_in_range k d :
  0 < d < 2 ^ 31 → timer_delay k (Num d) = d.
Proof.
  intros Hd. destruct k; cbn.
  - unfold ToInt32. rewrite Z.mod_small by lia.
    destruct (Z.ltb_spec d (2 ^ 31)); lia.
  - rewrite decide_True; lia.
Qed.

(** The host never waits longer than the delay that it is given. *)
Lemma timer_delay_le k d :
  0 < d → 0 ≤ timer_delay k (Num d) ≤ d.
Proof.
  intros Hd. destruct k; cbn.
  - pose proof (ToInt32_le d ltac:(lia)). lia.
  - case_decide; lia.
Qed.

Section FetchTimeout.
Context `{Environment}.

Lemma number_to_string_safe d :
  Z.abs d ≤ 2 ^ 53 → number_to_string (Num d) = pretty d.
Proof. intros Hd. cbn. by rewrite decide_True. Qed.

(** C7, as the code has it.  When a positive [responseTimeout] is
    supplied, the request options hold no [signal] of their own, and
    the transport does not settle within the timeout, the fetch sets a
    timer that aborts the controller to which the request listens, and
    the call is rejected with a [FetchError] that carries the message
    of the time-out error; the default response timeout is 3000 ms.
    The timer fires after the timeout, and the message names it in
    decimal, for every timeout below [2 ^ 31]; from there on the host
    fires the timer earlier. *)
Theorem fetch_response_timeout uri requestOptions data h d :
  Number (optional_member requestOptions "responseTimeout") = Num d →
  0 < d →
  spread requestOptions !! "signal" = None →
  timers_refer_to_controllers h →
  (∀ init, ¬ arrives_within d (network h uri init)) →
  let result := (nodeWebCompat.fetch uri requestOptions data h).1 in
  let h' := (nodeWebCompat.fetch uri requestOptions data h).2 in
  let timeout :=
    FetchError uri
      ("Response time-out (after " +:+ number_to_string (Num d) +:+ " ms.)") in
  (∃ init, requests h' = requests h ++ [(uri, init)]
           ∧ request_signal init = Some (controllers h))
  ∧ timers h'
    = timers h
      ++ [{| fires_at := timer_delay (kind h) (Num d);
             run := AbortWith (controllers h) timeout |}]
  ∧ result = Rejected (FetchError uri (message timeout))
  ∧ nodeWebCompat.response nodeWebCompat.defaultFetchTimeouts = 3000
  ∧ (d < 2 ^ 31 →
     timer_delay (kind h) (Num d) = d
     ∧ number_to_string (Num d) = pretty d).
Proof.
  intros Hn Hd Hsignal Hh Hlate. cbv zeta.
  rewrite fetch_truthy by (rewrite Hn; cbn; apply negb_true_iff; lia).
  rewrite Hn. cbn [fst snd].
  set (init := <[ "body" := _ ]> _).
  assert (Hinit : request_signal init = Some (controllers h)).
  { unfold request_signal, init.
    rewrite lookup_insert_ne by done.
    rewrite lookup_union_r by done.
    by rewrite lookup_singleton_eq. }
  pose proof (timer_delay_le (kind h) d Hd) as Hdelay.
  split; [by exists init|]. split; [done|]. split; [|split; [done|]].
  - unfold transport_outcome. rewrite Hinit.
    unfold armed. cbn [mbind option_bind timers network].
    rewrite first_abort_new by by apply timers_refer_fresh.
    specialize (Hlate init). unfold abortable.
    destruct (network h uri init) as [[settled_at r]|]; [|done].
    cbn [arrives_within] in Hlate.
    by destruct (Z.leb_spec settled_at (timer_delay (kind h) (Num d))); [lia|].
  - intros Hrange. split.
    + apply timer_delay_in_range. lia.
    + apply number_to_string_safe. lia.
Qed.

(** C10.  When [Number(responseTimeout)] is falsy (the option is
    absent, is 0, or converts to [NaN]) the fetch sets no timer and
    creates no abort controller, and passes the request options on
    with the body and nothing else; a request that the transport never
    settles then stays pending: a timeout of 0 does not time out. *)
Theorem fetch_without_timeout uri requestOptions data h :
  let n := Number (optional_member requestOptions "responseTimeout") in
  optional_member requestOptions "responseTimeout" = VUndefined
  ∨ n = Num 0 ∨ n = NaN →
  let result := (nodeWebCompat.fetch uri requestOptions data h).1 in
  let h' := (nodeWebCompat.fetch uri requestOptions data h).2 in
  let init := <[ "body" := from_option VBuffer VUndefined data ]>
                (spread requestOptions) in
  timers h' = timers h
  ∧ controllers h' = controllers h
  ∧ requests h' = requests h ++ [(uri, init)]
  ∧ (spread requestOptions !! "signal" = None →
     network h uri init = None → result = Pending).
Proof.
  intros n Hn. cbv zeta.
  assert (Hfalsy : truthy n = false).
  { destruct Hn as [Hn | [Hn | Hn]]; [unfold n|..]; by rewrite Hn. }
  rewrite fetch_falsy by done. cbn [fst snd].
  repeat split.
  intros Hsignal Hsilent.
  unfold transport_outcome, request_signal.
  rewrite lookup_insert_ne by done. rewrite Hsignal, Hsilent. done.
Qed.

End FetchTimeout.

(** ** Keys and signatures *)

Lemma prefix_ES alg :
  String.prefix "ES" alg = true →
  String.prefix "RS" alg = false ∧ alg ≠ EmptyString.
Proof.
  destruct alg as [|c alg]; [done|]. intros HES. split; [|done].
  change (String.prefix "ES" (String c alg))
    with (if Ascii.ascii_dec "E" c then String.prefix "S" alg else false)
    in HES.
  change (String.prefix "RS" (String c alg))
    with (if Ascii.ascii_dec "R" c then String.prefix "S" alg else false).
  destruct (Ascii.ascii_dec "E" c) as [<-|]; [|done].
  by destruct (Ascii.ascii_dec "R" "E").
Qed.

Section Keys.
Context `{Environment}.

(** C2.  The curves of the ECDSA algorithms are P-256 for ES256, P-384
    for ES384 and P-521 for ES512, and a key whose effective algorithm
    starts with ES is imported under the name ECDSA with the curve of
    that algorithm. *)
Theorem import_ecdsa_curve jwk jwtHeaderAlg alg :
  nodeWebCompat.effective_alg jwk jwtHeaderAlg = Some alg →
  String.prefix "ES" alg = true →
  nodeWebCompat.transformJwkToKeyObjectAsync jwk jwtHeaderAlg
  = import_with (ImportCurve "ECDSA" (NamedCurvesWebCrypto !! alg)) jwk
  ∧ NamedCurvesWebCrypto !! "ES256"%string = Some "P-256"%string
  ∧ NamedCurvesWebCrypto !! "ES384"%string = Some "P-384"%string
  ∧ NamedCurvesWebCrypto !! "ES512"%string = Some "P-521"%string.
Proof.
  intros Halg HES. destruct (prefix_ES alg HES) as [HRS Hne].
  repeat split; try (vm_compute; reflexivity).
  unfold nodeWebCompat.transformJwkToKeyObjectAsync. rewrite Halg.
  destruct alg as [|c alg]; [done|].
  unfold nodeWebCompat.algIdentifier. by rewrite HRS, HES.
Qed.

(** C5.  The algorithm of the import is the [alg] of the JWK when it
    has one, and the algorithm of the JWT header otherwise; with
    neither the call fails with [JwtInvalidSignatureAlgorithmError]. *)
Theorem import_effective_alg jwk jwtHeaderAlg :
  let effective :=
    match Jwk.alg jwk with
    | Some alg => Some alg
    | None => jwtHeaderAlg
    end in
  match effective with
  | None =>
      nodeWebCompat.transformJwkToKeyObjectAsync jwk jwtHeaderAlg
      = Throw
          (JwtInvalidSignatureAlgorithmError
             "Missing alg on both JWK and JWT header" None)
  | Some alg =>
      if decide (alg = EmptyString) then
        nodeWebCompat.transformJwkToKeyObjectAsync jwk jwtHeaderAlg
        = Throw
            (JwtInvalidSignatureAlgorithmError
               "Missing alg on both JWK and JWT header" (Some alg))
      else
        nodeWebCompat.transformJwkToKeyObjectAsync jwk jwtHeaderAlg
        = import_with (nodeWebCompat.algIdentifier alg jwk) jwk
  end.
Proof.
  unfold nodeWebCompat.transformJwkToKeyObjectAsync,
    nodeWebCompat.effective_alg.
  destruct (Jwk.alg jwk) as [alg|]; [|destruct jwtHeaderAlg as [alg|]];
    try done; case_decide; subst; try done; by destruct alg.
Qed.

(** C6.  The synchronous entry points fail with [NotSupportedError] on
    every input; the asynchronous ones never do. *)
Theorem sync_not_supported jwk jwtHeaderAlg args :
  nodeWebCompat.transformJwkToKeyObjectSync jwk jwtHeaderAlg
  = Throw
      (NotSupportedError
         "Synchronously transforming a JWK into a key object is not supported in the browser")
  ∧ nodeWebCompat.verifySignatureSync args
    = Throw
        (NotSupportedError
           "Synchronously verifying a JWT signature is not supported in the browser")
  ∧ (∀ msg, nodeWebCompat.transformJwkToKeyObjectAsync jwk jwtHeaderAlg
            ≠ Throw (NotSupportedError msg))
  ∧ (∀ msg, nodeWebCompat.verifySignatureAsync args
            ≠ Throw (NotSupportedError msg)).
Proof.
  repeat split; intros msg.
  - unfold nodeWebCompat.transformJwkToKeyObjectAsync.
    destruct (nodeWebCompat.effective_alg jwk jwtHeaderAlg) as [[|c alg]|];
      done.
  - unfold nodeWebCompat.verifySignatureAsync, bufferFromBase64url.
    cbv zeta. destruct (B64.match_global _); done.
Qed.

(** C8.  The verification is chosen by the name of the algorithm:
    RSASSA-PKCS1-v1_5 for a name that starts with RS, ECDSA with the
    digest SHA- followed by the digits of the name for a name that
    starts with ES (SHA-256, SHA-384, SHA-512 for ES256, ES384, ES512),
    and the curve [crv] of the JWK of the key for any other name. *)
Theorem verify_dispatch args :
  (String.prefix "RS" (alg args) = true →
   nodeWebCompat.verifySignatureAsync args
   = verify_with (VerifyNamed (Some "RSASSA-PKCS1-v1_5"%string)) args)
  ∧ (String.prefix "ES" (alg args) = true →
     nodeWebCompat.verifySignatureAsync args
     = verify_with
         (VerifyHashed "ECDSA" ("SHA-" +:+ slice 2 (alg args))) args)
  ∧ (String.prefix "RS" (alg args) = false →
     String.prefix "ES" (alg args) = false →
     nodeWebCompat.verifySignatureAsync args
     = verify_with (VerifyNamed (Jwk.crv (jwk (keyObject args)))) args)
  ∧ "SHA-" +:+ slice 2 "ES256" = "SHA-256"%string
  ∧ "SHA-" +:+ slice 2 "ES384" = "SHA-384"%string
  ∧ "SHA-" +:+ slice 2 "ES512" = "SHA-512"%string.
Proof.
  unfold nodeWebCompat.verifySignatureAsync, nodeWebCompat.verify_algorithm,
    verify_with.
  repeat split; try done.
  - by intros ->.
  - intros HES. destruct (prefix_ES _ HES) as [-> _]. by rewrite HES.
  - by intros -> ->.
Qed.

End Keys.

(** ** The statements on concrete inputs *)

Lemma base64url_string_TWE : base64url_string "TWE".
Proof.
  unfold base64url_string, split_chars. cbn [String.list_ascii_of_string].
  repeat (apply List.Forall_cons; [by eexists|]). apply List.Forall_nil.
Defined.

Lemma single_line_TW_u : single_line (B64.strip_padding "TW*u").
Proof.
  unfold single_line, split_chars. cbn.
  repeat (apply List.Forall_cons; [reflexivity|]). apply List.Forall_nil.
Defined.

(** The decoder on the padded text [TWE=], and on a text with a character
    that is not in the alphabet. *)
Lemma decoder_unchecked_witness :
  ("TWE"%string ≠ EmptyString
   ∧ base64url_string "TWE"
   ∧ bufferFromBase64url "TWE=" = Return [77; 97])
  ∧ (B64.strip_padding "TW*u" ≠ EmptyString
     ∧ single_line (B64.strip_padding "TW*u")
     ∧ bufferFromBase64url "TW*u" = Return [77; 96; 46]).
Proof.
  split.
  - split; [done|]. split; [exact base64url_string_TWE|].
    exact (proj1 (proj2 decoder_unchecked) "TWE"%string "="%string
             ltac:(done) base64url_string_TWE
             (or_intror (or_introl eq_refl))).
  - split; [done|]. split; [exact single_line_TW_u|].
    exact (proj2 (proj2 decoder_unchecked) "TW*u"%string
             ltac:(done) single_line_TW_u).
Defined.

(** A text with a character outside the alphabet, and a text of length 1
    modulo 4, are decoded: the decoder does not fail on them. *)
Lemma decoder_accepts_unchecked_input :
  ¬ base64url_string "TW*u"
  ∧ bufferFromBase64url "TW*u" = Return [77; 96; 46]
  ∧ (String.length "TWFuT" mod 4 = 1)%nat
  ∧ bufferFromBase64url "TWFuT" = Return [77; 97; 110].
Proof.
  split; [|by vm_compute].
  unfold base64url_string, split_chars. cbn [String.list_ascii_of_string].
  rewrite !Forall_cons. intros (_ & _ & [? Hstar] & _).
  vm_compute in Hstar. discriminate.
Qed.

(** The bytes of [Man] come back from their encoding [TWFu]. *)
Lemma decode_encode_witness :
  [77; 97; 110] ≠ []
  ∧ byte_sequence [77; 97; 110]
  ∧ bufferFromBase64url (encodeBase64Url [77; 97; 110]) = Return [77; 97; 110].
Proof.
  assert (Hb : byte_sequence [77; 97; 110]).
  { unfold byte_sequence. repeat (apply List.Forall_cons; [lia|]).
    apply List.Forall_nil. }
  split; [done|]. split; [exact Hb|].
  exact (decode_encode [77; 97; 110] ltac:(done) Hb).
Defined.

(** C4, at the empty sequence of bytes.  Its encoding is the empty
    string, which has no chunk to match: the decoder reads [reduce] of
    the [null] that its own assertion on the match rules out, and throws
    a [TypeError].  The empty sequence does not come back. *)
Lemma decode_encode_empty :
  byte_sequence []
  ∧ encodeBase64Url [] = EmptyString
  ∧ bufferFromBase64url (encodeBase64Url [])
    = Throw (TypeError "Cannot read properties of null (reading 'reduce')")
  ∧ bufferFromBase64url (encodeBase64Url []) ≠ Return [].
Proof.
  split; [apply List.Forall_nil|]. split; [reflexivity|].
  split; [reflexivity|]. vm_compute. discriminate.
Qed.

(** The two bytes of the padded text [TWE=]. *)
Lemma decoded_bytes_length_witness :
  B64.strip_padding "TWE=" ≠ EmptyString
  ∧ base64url_string (B64.strip_padding "TWE=")
  ∧ (String.length (B64.strip_padding "TWE=") mod 4 ≠ 1)%nat
  ∧ ∃ bytes, bufferFromBase64url "TWE=" = Return bytes ∧ length bytes = 2%nat.
Proof.
  split; [done|]. split; [exact base64url_string_TWE|]. split; [done|].
  destruct (decoded_bytes_length "TWE=" ltac:(done) base64url_string_TWE
              ltac:(done)) as (bytes & Hbytes & Hlen & _).
  exists bytes. split; [exact Hbytes | exact Hlen].
Defined.

(** A timeout of 3000 ms against a transport that stays silent. *)
Lemma fetch_response_timeout_witness :
  let uri := "https://issuer.example/.well-known/jwks.json"%string in
  let requestOptions : option (gmap string jsval) :=
    Some {[ "responseTimeout"%string := VNumber (Num 3000) ]} in
  @Number example_environment
    (optional_member requestOptions "responseTimeout") = Num 3000
  ∧ 0 < 3000
  ∧ spread requestOptions !! "signal"%string = None
  ∧ timers_refer_to_controllers silent_host
  ∧ (∀ init, ¬ arrives_within 3000 (network silent_host uri init))
  ∧ (@nodeWebCompat.fetch example_environment uri requestOptions None
       silent_host).1
    = Rejected (FetchError uri "Response time-out (after 3000 ms.)").
Proof.
  intros uri requestOptions.
  assert (Hn : @Number example_environment
                 (optional_member requestOptions "responseTimeout") = Num 3000)
    by reflexivity.
  assert (Hsignal : spread requestOptions !! "signal"%string = None)
    by reflexivity.
  assert (Hh : timers_refer_to_controllers silent_host) by apply List.Forall_nil.
  assert (Hlate : ∀ init, ¬ arrives_within 3000 (network silent_host uri init))
    by (intros init []).
  repeat (split; [done|]).
  exact (proj1 (proj2 (proj2
           (@fetch_response_timeout example_environment uri requestOptions
              None silent_host 3000 Hn ltac:(done) Hsignal Hh Hlate)))).
Defined.

(** A timeout of 1000 ms beside a signal of the caller's: the request
    listens to the caller's signal, the timer aborts a controller to
    which nothing listens, and the call stays pending. *)
Lemma fetch_timeout_own_signal :
  let uri := "https://issuer.example/.well-known/jwks.json"%string in
  let requestOptions : option (gmap string jsval) :=
    Some {[ "responseTimeout"%string := VNumber (Num 1000);
            "signal"%string := VSignal 0 ]} in
  let call :=
    @nodeWebCompat.fetch example_environment uri requestOptions None
      silent_host in
  @Number example_environment
    (optional_member requestOptions "responseTimeout") = Num 1000
  ∧ request_signal <$> (snd <$> requests call.2) = [Some 0%nat]
  ∧ run <$> timers call.2
    = [AbortWith 1 (FetchError uri "Response time-out (after 1000 ms.)")]
  ∧ call.1 = Pending.
Proof. by vm_compute. Qed.

(** A timeout of 0 against a transport that stays silent. *)
Lemma fetch_without_timeout_witness :
  let uri := "https://issuer.example/.well-known/jwks.json"%string in
  let requestOptions : option (gmap string jsval) :=
    Some {[ "responseTimeout"%string := VNumber (Num 0) ]} in
  let call :=
    @nodeWebCompat.fetch example_environment uri requestOptions None
      silent_host in
  @Number example_environment
    (optional_member requestOptions "responseTimeout") = Num 0
  ∧ timers call.2 = []
  ∧ call.1 = Pending.
Proof.
  intros uri requestOptions call.
  assert (Hn : @Number example_environment
                 (optional_member requestOptions "responseTimeout") = Num 0)
    by reflexivity.
  destruct (@fetch_without_timeout example_environment uri requestOptions
              None silent_host (or_intror (or_introl Hn)))
    as (Htimers & _ & _ & Hpending).
  split; [exact Hn|]. split; [exact Htimers|].
  exact (Hpending eq_refl eq_refl).
Defined.

(** A key without [alg], for a token whose header says ES512. *)
Lemma import_ecdsa_curve_witness :
  let jwk := example_jwk None (Some "P-521"%string) in
  nodeWebCompat.effective_alg jwk (Some "ES512"%string) = Some "ES512"%string
  ∧ String.prefix "ES" "ES512" = true
  ∧ @nodeWebCompat.transformJwkToKeyObjectAsync example_environment jwk
      (Some "ES512"%string)
    = @import_with example_environment
        (ImportCurve "ECDSA" (Some "P-521"%string)) jwk.
Proof.
  intros jwk. split; [reflexivity|]. split; [reflexivity|].
  exact (proj1 (@import_ecdsa_curve example_environment jwk
                  (Some "ES512"%string) "ES512"%string eq_refl eq_refl)).
Defined.

(** The three families of algorithms: RS256, ES384 and EdDSA. *)
Lemma verify_dispatch_witness :
  (String.prefix "RS" "RS256" = true
   ∧ @nodeWebCompat.verifySignatureAsync example_environment
       (example_args "RS256" None)
     = @verify_with example_environment
         (VerifyNamed (Some "RSASSA-PKCS1-v1_5"%string))
         (example_args "RS256" None))
  ∧ (String.prefix "ES" "ES384" = true
     ∧ @nodeWebCompat.verifySignatureAsync example_environment
         (example_args "ES384" None)
       = @verify_with example_environment (VerifyHashed "ECDSA" "SHA-384")
           (example_args "ES384" None))
  ∧ (String.prefix "RS" "EdDSA" = false
     ∧ String.prefix "ES" "EdDSA" = false
     ∧ @nodeWebCompat.verifySignatureAsync example_environment
         (example_args "EdDSA" (Some "Ed25519"%string))
       = @verify_with example_environment
           (VerifyNamed (Some "Ed25519"%string))
           (example_args "EdDSA" (Some "Ed25519"%string))).
Proof.
  split; [|split].
  - split; [reflexivity|].
    exact (proj1 (@verify_dispatch example_environment
                    (example_args "RS256" None)) eq_refl).
  - split; [reflexivity|].
    exact (proj1 (proj2 (@verify_dispatch example_environment
                           (example_args "ES384" None))) eq_refl).
  - split; [reflexivity|]. split; [reflexivity|].
    exact (proj1 (proj2 (proj2
             (@verify_dispatch example_environment
                (example_args "EdDSA" (Some "Ed25519"%string)))))
             eq_refl eq_refl).
Defined.

(** The outcomes of the fetch against three transports. *)
Example fetch_status_200 :
  (@nodeWebCompat.fetch example_environment "https://issuer.example/jwks" None
     None (answering_host 200 (Some (40, Return [123; 125])))).1
  = Fulfilled [123; 125].
Proof. reflexivity. Qed.

Example fetch_status_404 :
  (@nodeWebCompat.fetch example_environment "https://issuer.example/jwks" None
     None (answering_host 404 (Some (40, Return [])))).1
  = Rejected
      (NonRetryableFetchError "https://issuer.example/jwks"
         "Status code is 404, expected 200").
Proof. by vm_compute. Qed.

Example fetch_network_error :
  (@nodeWebCompat.fetch example_environment "https://issuer.example/jwks" None
     None (failing_host (HostError "TypeError" "Failed to fetch"))).1
  = Rejected (FetchError "https://issuer.example/jwks" "Failed to fetch").
Proof. reflexivity. Qed.

(** C1, at a response whose body cannot be read.  The transport answers
    with status 200 after 20 ms and fails 20 ms later, while it
    transfers the body.  The call is rejected with the error of the host
    as it is: it does not return the bytes of a body, and the error is
    not wrapped in a [FetchError], as the same error is when the
    transport fails before it answers. *)
Lemma fetch_body_read_fails :
  let uri := "https://issuer.example/.well-known/jwks.json"%string in
  let err := HostError "TypeError" "network error" in
  (@nodeWebCompat.fetch example_environment uri None None
     (answering_host 200 (Some (40, Throw err)))).1
  = Rejected err
  ∧ (∀ bytes,
       (@nodeWebCompat.fetch example_environment uri None None
          (answering_host 200 (Some (40, Throw err)))).1
       ≠ Fulfilled bytes)
  ∧ (∀ msg,
       (@nodeWebCompat.fetch example_environment uri None None
          (answering_host 200 (Some (40, Throw err)))).1
       ≠ Rejected (FetchError uri msg))
  ∧ (@nodeWebCompat.fetch example_environment uri None None
       (failing_host err)).1
    = Rejected (FetchError uri "network error").
Proof. by vm_compute. Qed.

(** * Further properties of the code *)

(** ** The decoder on every input *)

Lemma match_chunks_nil pending s :
  B64.match_chunks pending s = [] ↔
  pending = EmptyString ∧ only_line_terminators s.
Proof.
  unfold only_line_terminators, split_chars.
  revert pending. induction s as [|c s IH]; intros pending;
    cbn [B64.match_chunks String.list_ascii_of_string].
  - split.
    + destruct pending; [|done]. intros _. split; [done|apply List.Forall_nil].
    + by intros [-> _].
  - rewrite Forall_cons. destruct (B64.is_line_terminator c) eqn:Hc.
    + destruct pending as [|p pending].
      * rewrite IH. split; [intros [_ ?]|intros [_ [_ ?]]]; done.
      * split; [done|]. by intros [? _].
    + split; [|by intros [_ [? _]]].
      case_decide; [done|]. intros Hnil. exfalso.
      eapply match_chunks_pending; [|exact Hnil]. by destruct pending.
Qed.

Lemma match_global_None s :
  B64.match_global s = None ↔ only_line_terminators s.
Proof.
  unfold B64.match_global.
  pose proof (match_chunks_nil EmptyString s) as Hnil.
  destruct (B64.match_chunks EmptyString s); [|split; [done|]].
  - split; [|done]. intros _. by apply Hnil.
  - intros Hs. by pose proof (proj2 Hnil (conj eq_refl Hs)).
Qed.

(** X1.  The decoder throws exactly when the input, after the removal of
    the padding, holds nothing but line terminators (the empty input, and
    an input of padding only, among them); what it throws is the
    [TypeError] of reading [reduce] from [null].  On every other input it
    returns a buffer. *)
Theorem decoder_throws_exactly s :
  (bufferFromBase64url s
   = Throw (TypeError "Cannot read properties of null (reading 'reduce')")
   ↔ only_line_terminators (B64.strip_padding s))
  ∧ ((∃ bytes, bufferFromBase64url s = Return bytes)
     ↔ ¬ only_line_terminators (B64.strip_padding s)).
Proof.
  unfold bufferFromBase64url. cbv zeta.
  pose proof (match_global_None (B64.strip_padding s)) as Hnone.
  destruct (B64.match_global (B64.strip_padding s)) as [chunks|].
  - split; split; try done.
    + intros Hs. by apply Hnone in Hs.
    + intros _ Hs. by apply Hnone in Hs.
    + intros _. by eexists.
  - split; split; try done.
    + intros _. by apply Hnone.
    + by intros [? ?].
    + intros Hs. exfalso. apply Hs. by apply Hnone.
Qed.

Lemma ToUint8_range v : 0 ≤ ToUint8 v < 256.
Proof. unfold ToUint8. apply Z.mod_pos_bound. lia. Qed.

Lemma decode_step_bytes acc chunk index :
  byte_sequence acc → byte_sequence (B64.decode_step acc chunk index).
Proof.
  unfold byte_sequence, B64.decode_step, uint8_store. intros Hacc.
  repeat (apply Forall_insert; [|apply ToUint8_range]). done.
Qed.

Lemma reduce_decode_bytes chunks index acc :
  byte_sequence acc →
  byte_sequence (reduce B64.decode_step chunks index acc).
Proof.
  revert index acc. induction chunks as [|c cs IH]; intros index acc Hacc;
    cbn [reduce]; [done|].
  apply IH. by apply decode_step_bytes.
Qed.

(** X2.  Whatever the input, a buffer that the decoder returns has
    [3 * n / 4] elements, rounded down, for the [n] characters that the
    input has after the removal of the padding, and each of them is a
    byte. *)
Theorem decoded_buffer_bounds s bytes :
  bufferFromBase64url s = Return bytes →
  length bytes = (String.length (B64.strip_padding s) * 3 / 4)%nat
  ∧ byte_sequence bytes.
Proof.
  unfold bufferFromBase64url. cbv zeta.
  destruct (B64.match_global _) as [chunks|]; [|done].
  intros [= <-]. split.
  - rewrite length_reduce_decode. unfold new_Uint8Array, decoded_length.
    by rewrite length_replicate.
  - apply reduce_decode_bytes. unfold byte_sequence, new_Uint8Array.
    apply Forall_replicate. lia.
Qed.

Lemma decoded_buffer_bounds_witness :
  bufferFromBase64url "TW*u" = Return [77; 96; 46]
  ∧ length [77; 96; 46] = (String.length (B64.strip_padding "TW*u") * 3 / 4)%nat
  ∧ byte_sequence [77; 96; 46].
Proof.
  split; [reflexivity|].
  exact (decoded_buffer_bounds "TW*u" [77; 96; 46] eq_refl).
Defined.

(** The padding is looked for at the end only: a text without [=] stays,
    whatever follows it. *)
Lemma strip_padding_app s t :
  Forall (fun c => c ≠ "="%char) (split_chars s) →
  B64.strip_padding (s +:+ t) = s +:+ B64.strip_padding t.
Proof.
  induction s as [|c s IH]; [done|].
  unfold split_chars. cbn [String.list_ascii_of_string].
  intros [Hc Hs]%Forall_cons.
  change (String c s +:+ t) with (String c (s +:+ t)).
  change (String c s +:+ B64.strip_padding t)
    with (String c (s +:+ B64.strip_padding t)).
  rewrite <- (IH Hs). cbn [B64.strip_padding].
  destruct c as [[] [] [] [] [] [] [] []]; try done.
Qed.

(** X3.  One or two [=] at the end of a text that holds no other [=]
    change nothing to what the decoder does with it, be it a buffer or
    the [TypeError]. *)
Theorem decoder_ignores_padding s :
  Forall (fun c => c ≠ "="%char) (split_chars s) →
  bufferFromBase64url (s +:+ "=") = bufferFromBase64url s
  ∧ bufferFromBase64url (s +:+ "==") = bufferFromBase64url s.
Proof.
  intros Hs.
  assert (H0 : B64.strip_padding s = s).
  { rewrite <- (append_empty_r s) at 1.
    rewrite strip_padding_app by done. apply append_empty_r. }
  assert (H1 : B64.strip_padding (s +:+ "=") = s).
  { rewrite strip_padding_app by done. apply append_empty_r. }
  assert (H2 : B64.strip_padding (s +:+ "==") = s).
  { rewrite strip_padding_app by done. apply append_empty_r. }
  unfold bufferFromBase64url. cbv zeta. by rewrite H0, H1, H2.
Qed.

Lemma decoder_ignores_padding_witness :
  Forall (fun c => c ≠ "="%char) (split_chars "TQ")
  ∧ bufferFromBase64url "TQ=" = bufferFromBase64url "TQ"
  ∧ bufferFromBase64url "TQ==" = bufferFromBase64url "TQ".
Proof.
  assert (Hs : Forall (fun c => c ≠ "="%char) (split_chars "TQ")).
  { unfold split_chars. cbn.
    repeat (apply List.Forall_cons; [discriminate|]). apply List.Forall_nil. }
  split; [exact Hs|]. exact (decoder_ignores_padding "TQ" Hs).
Defined.

Lemma rfc4648_decode_app (groups : nat) l1 l2 :
  length l1 = (4 * groups)%nat →
  rfc4648_decode (l1 ++ l2) = rfc4648_decode l1 ++ rfc4648_decode l2.
Proof.
  revert l1. induction groups as [|groups IH]; intros l1 Hlen.
  - by destruct l1.
  - destruct l1 as [|a [|b [|c [|d l1]]]]; cbn in Hlen; try lia.
    cbn [app rfc4648_decode]. rewrite IH by lia. reflexivity.
Qed.

Lemma split_chars_app s t :
  split_chars (s +:+ t) = split_chars s ++ split_chars t.
Proof.
  unfold split_chars. induction s as [|c s IH]; [done|].
  change (String c s +:+ t) with (String c (s +:+ t)).
  cbn [String.list_ascii_of_string app]. by rewrite IH.
Qed.

Lemma length_split_chars s : length (split_chars s) = String.length s.
Proof.
  unfold split_chars. induction s as [|c s IH]; [done|].
  cbn [String.list_ascii_of_string length String.length]. by rewrite IH.
Qed.

Lemma base64url_bytes_app s t :
  (String.length s mod 4 = 0)%nat →
  base64url_bytes (s +:+ t) = base64url_bytes s ++ base64url_bytes t.
Proof.
  intros Hs. unfold base64url_bytes.
  rewrite split_chars_app, fmap_app.
  apply (rfc4648_decode_app (String.length s / 4)).
  rewrite length_fmap, length_split_chars.
  pose proof (Nat.div_mod_eq (String.length s) 4). lia.
Qed.

(** What the decoder returns for a text without line terminators. *)
Lemma bufferFromBase64url_Return s bytes :
  single_line (B64.strip_padding s) →
  bufferFromBase64url s = Return bytes →
  bytes = base64url_bytes (B64.strip_padding s).
Proof.
  intros Hline Hs.
  assert (Hne : B64.strip_padding s ≠ EmptyString).
  { intros Hempty. unfold bufferFromBase64url in Hs. cbv zeta in Hs.
    rewrite Hempty in Hs. done. }
  rewrite bufferFromBase64url_single_line, sextets_alphabet in Hs by done.
  by injection Hs as <-.
Qed.

(** X4.  A text that comes after a whole number of groups of four
    characters is decoded on its own: the bytes of the whole are the
    bytes of the groups, followed by the bytes of what comes after
    them. *)
Theorem decoder_concatenation s1 s2 b1 b2 :
  single_line s1 →
  Forall (fun c => c ≠ "="%char) (split_chars s1) →
  (String.length s1 mod 4 = 0)%nat →
  single_line (B64.strip_padding s2) →
  bufferFromBase64url s1 = Return b1 →
  bufferFromBase64url s2 = Return b2 →
  bufferFromBase64url (s1 +:+ s2) = Return (b1 ++ b2).
Proof.
  intros Hline1 Hpad1 Hlen1 Hline2 Hb1 Hb2.
  assert (Hstrip1 : B64.strip_padding s1 = s1).
  { rewrite <- (append_empty_r s1) at 1.
    rewrite strip_padding_app by done. apply append_empty_r. }
  assert (Hne2 : B64.strip_padding s2 ≠ EmptyString).
  { intros Hempty. unfold bufferFromBase64url in Hb2. cbv zeta in Hb2.
    rewrite Hempty in Hb2. done. }
  apply bufferFromBase64url_Return in Hb1; [|by rewrite Hstrip1].
  apply bufferFromBase64url_Return in Hb2; [|done].
  rewrite Hstrip1 in Hb1. subst b1 b2.
  rewrite bufferFromBase64url_single_line; rewrite strip_padding_app by done.
  - rewrite sextets_alphabet.
    fold (base64url_bytes (s1 +:+ B64.strip_padding s2)).
    by rewrite base64url_bytes_app.
  - intros Hempty. apply (f_equal String.length) in Hempty.
    rewrite <- !length_split_chars, split_chars_app, length_app in Hempty.
    rewrite !length_split_chars in Hempty.
    destruct (B64.strip_padding s2); [done|]. cbn in Hempty. lia.
  - unfold single_line in *. rewrite split_chars_app. by apply Forall_app.
Qed.

Lemma single_line_TWFu : single_line "TWFu".
Proof.
  unfold single_line, split_chars. cbn.
  repeat (apply List.Forall_cons; [reflexivity|]). apply List.Forall_nil.
Defined.

Lemma decoder_concatenation_witness :
  single_line "TWFu"
  ∧ Forall (fun c => c ≠ "="%char) (split_chars "TWFu")
  ∧ (String.length "TWFu" mod 4 = 0)%nat
  ∧ single_line (B64.strip_padding "TWE=")
  ∧ bufferFromBase64url "TWFu" = Return [77; 97; 110]
  ∧ bufferFromBase64url "TWE=" = Return [77; 97]
  ∧ bufferFromBase64url "TWFuTWE=" = Return [77; 97; 110; 77; 97].
Proof.
  assert (Hpad : Forall (fun c => c ≠ "="%char) (split_chars "TWFu")).
  { unfold split_chars. cbn.
    repeat (apply List.Forall_cons; [discriminate|]). apply List.Forall_nil. }
  assert (Hline : single_line (B64.strip_padding "TWE=")).
  { unfold single_line, split_chars. cbn.
    repeat (apply List.Forall_cons; [reflexivity|]). apply List.Forall_nil. }
  split; [exact single_line_TWFu|]. split; [exact Hpad|].
  split; [reflexivity|]. split; [exact Hline|].
  split; [reflexivity|]. split; [reflexivity|].
  exact (decoder_concatenation "TWFu" "TWE=" [77; 97; 110] [77; 97]
           single_line_TWFu Hpad eq_refl Hline eq_refl eq_refl).
Defined.

Lemma base64_padding_cases n :
  base64_padding n = EmptyString ∨ base64_padding n = "="%string
  ∨ base64_padding n = "=="%string.
Proof.
  unfold base64_padding. destruct (n mod 3)%nat as [|[|[|?]]]; auto.
Qed.

(** X5.  The padding that the source says to ignore: a sequence of bytes
    that is not empty is what the decoder returns for its base64url
    encoding with the padding of the standard. *)
Theorem decode_padded_encoding bytes :
  bytes ≠ [] → byte_sequence bytes →
  bufferFromBase64url (encodeBase64Url bytes +:+ base64_padding (length bytes))
  = Return bytes.
Proof.
  intros Hne Hb. rewrite bufferFromBase64url_alphabet.
  - by rewrite base64url_bytes_encode.
  - by apply encodeBase64Url_nonempty.
  - by apply encodeBase64Url_alphabet.
  - apply base64_padding_cases.
Qed.

Lemma decode_padded_encoding_witness :
  [77] ≠ [] ∧ byte_sequence [77]
  ∧ encodeBase64Url [77] +:+ base64_padding (length [77]) = "TQ=="%string
  ∧ bufferFromBase64url "TQ==" = Return [77].
Proof.
  assert (Hb : byte_sequence [77]).
  { unfold byte_sequence. apply List.Forall_cons; [lia|apply List.Forall_nil]. }
  split; [done|]. split; [exact Hb|]. split; [reflexivity|].
  exact (decode_padded_encoding [77] ltac:(done) Hb).
Defined.

(** ** The decoder under [parseB64UrlString] and [verifySignatureAsync] *)

Lemma bufferFromBase64url_encoding bytes pad :
  bytes ≠ [] → byte_sequence bytes →
  pad = EmptyString ∨ pad = "="%string ∨ pad = "=="%string →
  bufferFromBase64url (encodeBase64Url bytes +:+ pad) = Return bytes.
Proof.
  intros Hne Hb Hpad. rewrite bufferFromBase64url_alphabet; try done.
  - by rewrite base64url_bytes_encode.
  - by apply encodeBase64Url_nonempty.
  - by apply encodeBase64Url_alphabet.
Qed.

Lemma bufferFromBase64url_unmatched s :
  only_line_terminators (B64.strip_padding s) →
  bufferFromBase64url s
  = Throw (TypeError "Cannot read properties of null (reading 'reduce')").
Proof.
  intros Hs. unfold bufferFromBase64url. cbv zeta.
  by rewrite (proj2 (match_global_None _) Hs).
Qed.

Lemma only_line_terminators_empty : only_line_terminators EmptyString.
Proof. apply List.Forall_nil. Defined.

Section Decoding.
Context `{Environment}.

(** X6.  [parseB64UrlString] gives the text that the host decodes from
    the bytes of the decoder: for the base64url encoding of a sequence of
    bytes that is not empty, padded or not, it is the text of those
    bytes.  On an input that holds nothing but padding and line
    terminators it throws the [TypeError] of the decoder, and the text
    decoder is not reached. *)
Theorem parseB64UrlString_of_encoding bytes :
  bytes ≠ [] → byte_sequence bytes →
  nodeWebCompat.parseB64UrlString (encodeBase64Url bytes)
  = Return (TextDecoder_decode bytes)
  ∧ nodeWebCompat.parseB64UrlString
      (encodeBase64Url bytes +:+ base64_padding (length bytes))
    = Return (TextDecoder_decode bytes)
  ∧ (∀ s, only_line_terminators (B64.strip_padding s) →
          nodeWebCompat.parseB64UrlString s
          = Throw
              (TypeError "Cannot read properties of null (reading 'reduce')")).
Proof.
  intros Hne Hb. unfold nodeWebCompat.parseB64UrlString. repeat split.
  - rewrite <- (append_empty_r (encodeBase64Url bytes)).
    by rewrite bufferFromBase64url_encoding by auto.
  - by rewrite bufferFromBase64url_encoding
      by auto using base64_padding_cases.
  - intros s Hs. by rewrite bufferFromBase64url_unmatched.
Qed.

(** X7.  A signature that holds nothing but padding and line terminators,
    the empty signature first of all, makes [verifySignatureAsync] throw
    a [TypeError] at the call, whatever the algorithm and the key: no
    promise is returned and the host is not asked to verify. *)
Theorem verify_unmatched_signature args :
  only_line_terminators (B64.strip_padding (signature args)) →
  nodeWebCompat.verifySignatureAsync args
  = Throw (TypeError "Cannot read properties of null (reading 'reduce')").
Proof.
  intros Hs. unfold nodeWebCompat.verifySignatureAsync. cbv zeta.
  by rewrite bufferFromBase64url_unmatched.
Qed.

(** X8.  For a signature given as the base64url encoding of a sequence
    of bytes that is not empty, padded or not, the host is asked to
    verify those very bytes, over the bytes of the signing input and with
    the key of the key object; the promise of the host is returned as it
    is. *)
Theorem verify_receives_signature args bytes :
  bytes ≠ [] → byte_sequence bytes →
  signature args = encodeBase64Url bytes
  ∨ signature args = encodeBase64Url bytes +:+ base64_padding (length bytes) →
  nodeWebCompat.verifySignatureAsync args
  = Return
      (subtle_verify
         (nodeWebCompat.verify_algorithm (alg args) (keyObject args))
         (key (keyObject args)) bytes
         (TextEncoder_encode (jwsSigningInput args))).
Proof.
  intros Hne Hb Hsig. unfold nodeWebCompat.verifySignatureAsync. cbv zeta.
  destruct Hsig as [-> | ->].
  - rewrite <- (append_empty_r (encodeBase64Url bytes)).
    by rewrite bufferFromBase64url_encoding by auto.
  - by rewrite bufferFromBase64url_encoding
      by auto using base64_padding_cases.
Qed.

End Decoding.

Lemma byte_sequence_Man : byte_sequence [77; 97; 110].
Proof.
  unfold byte_sequence. repeat (apply List.Forall_cons; [lia|]).
  apply List.Forall_nil.
Defined.

Lemma parseB64UrlString_of_encoding_witness :
  [77; 97; 110] ≠ [] ∧ byte_sequence [77; 97; 110]
  ∧ @nodeWebCompat.parseB64UrlString example_environment "TWFu"
    = Return "Man"%string.
Proof.
  split; [done|]. split; [exact byte_sequence_Man|].
  exact (proj1 (@parseB64UrlString_of_encoding example_environment
                  [77; 97; 110] ltac:(done) byte_sequence_Man)).
Defined.

Lemma verify_unmatched_signature_witness :
  let args :=
    {| jwsSigningInput := "eyJhbGciOiJSUzI1NiJ9.e30";
       keyObject := {| key := crypto_key 0; jwk := example_jwk None None |};
       signature := "";
       alg := "RS256" |} in
  only_line_terminators (B64.strip_padding (signature args))
  ∧ @nodeWebCompat.verifySignatureAsync example_environment args
    = Throw (TypeError "Cannot read properties of null (reading 'reduce')").
Proof.
  intros args. split; [exact only_line_terminators_empty|].
  exact (@verify_unmatched_signature example_environment args
           only_line_terminators_empty).
Defined.

Lemma verify_receives_signature_witness :
  [77; 97; 110] ≠ [] ∧ byte_sequence [77; 97; 110]
  ∧ signature (example_args "ES256" None) = encodeBase64Url [77; 97; 110]
  ∧ @nodeWebCompat.verifySignatureAsync example_environment
      (example_args "ES256" None)
    = Return
        (@subtle_verify example_environment (VerifyHashed "ECDSA" "SHA-256")
           (crypto_key 0) [77; 97; 110]
           (@TextEncoder_encode example_environment
              "eyJhbGciOiJFUzI1NiJ9.e30")).
Proof.
  split; [done|]. split; [exact byte_sequence_Man|]. split; [reflexivity|].
  exact (@verify_receives_signature example_environment
           (example_args "ES256" None) [77; 97; 110] ltac:(done)
           byte_sequence_Man (or_introl eq_refl)).
Defined.

(** ** The import of keys *)

Lemma NamedCurvesWebCrypto_other alg :
  alg ≠ "ES256"%string → alg ≠ "ES384"%string → alg ≠ "ES512"%string →
  NamedCurvesWebCrypto !! alg = None.
Proof.
  intros H256 H384 H512. unfold NamedCurvesWebCrypto.
  rewrite !lookup_insert_ne by done. by apply lookup_singleton_ne.
Qed.

Section KeyImport.
Context `{Environment}.

(** X9.  A key whose effective algorithm starts with RS is imported
    under the name RSASSA-PKCS1-v1_5 with the digest SHA- followed by what
    the algorithm has after RS (SHA-256, SHA-384 and SHA-512 for RS256,
    RS384 and RS512).  A key whose effective algorithm is not empty and
    starts with neither RS nor ES is imported under the bare name that
    is the [crv] of the JWK. *)
Theorem import_rsa_and_named jwk jwtHeaderAlg alg :
  nodeWebCompat.effective_alg jwk jwtHeaderAlg = Some alg →
  (String.prefix "RS" alg = true →
   nodeWebCompat.transformJwkToKeyObjectAsync jwk jwtHeaderAlg
   = import_with
       (ImportHashed "RSASSA-PKCS1-v1_5" ("SHA-" +:+ slice 2 alg)) jwk)
  ∧ (alg ≠ EmptyString →
     String.prefix "RS" alg = false → String.prefix "ES" alg = false →
     nodeWebCompat.transformJwkToKeyObjectAsync jwk jwtHeaderAlg
     = import_with (ImportNamed (Jwk.crv jwk)) jwk)
  ∧ "SHA-" +:+ slice 2 "RS256" = "SHA-256"%string
  ∧ "SHA-" +:+ slice 2 "RS384" = "SHA-384"%string
  ∧ "SHA-" +:+ slice 2 "RS512" = "SHA-512"%string.
Proof.
  intros Halg.
  unfold nodeWebCompat.transformJwkToKeyObjectAsync,
    nodeWebCompat.algIdentifier. rewrite Halg.
  repeat split.
  - intros HRS. destruct alg as [|c alg]; [done|]. by rewrite HRS.
  - intros Hne HRS HES. destruct alg as [|c alg]; [done|].
    by rewrite HRS, HES.
Qed.

(** X10.  The curves are known for ES256, ES384 and ES512 only.  A key
    whose effective algorithm starts with ES and is none of the three is
    still handed to the host, under the name ECDSA and with no curve
    ([namedCurve] is [undefined]): the code does not refuse it. *)
Theorem import_unknown_ecdsa jwk jwtHeaderAlg alg :
  nodeWebCompat.effective_alg jwk jwtHeaderAlg = Some alg →
  String.prefix "ES" alg = true →
  alg ≠ "ES256"%string → alg ≠ "ES384"%string → alg ≠ "ES512"%string →
  nodeWebCompat.transformJwkToKeyObjectAsync jwk jwtHeaderAlg
  = import_with (ImportCurve "ECDSA" None) jwk.
Proof.
  intros Halg HES H256 H384 H512.
  destruct (prefix_ES alg HES) as [HRS Hne].
  unfold nodeWebCompat.transformJwkToKeyObjectAsync,
    nodeWebCompat.algIdentifier. rewrite Halg.
  destruct alg as [|c alg]; [done|].
  by rewrite HRS, HES, NamedCurvesWebCrypto_other.
Qed.

(** X11.  An [alg] of the JWK that is the empty string is not passed
    over for the algorithm of the JWT header: the import fails with
    [JwtInvalidSignatureAlgorithmError] whatever the header says. *)
Theorem import_empty_jwk_alg jwk jwtHeaderAlg :
  Jwk.alg jwk = Some EmptyString →
  nodeWebCompat.transformJwkToKeyObjectAsync jwk jwtHeaderAlg
  = Throw
      (JwtInvalidSignatureAlgorithmError
         "Missing alg on both JWK and JWT header" (Some EmptyString)).
Proof.
  intros Halg.
  unfold nodeWebCompat.transformJwkToKeyObjectAsync,
    nodeWebCompat.effective_alg. by rewrite Halg.
Qed.

(** X12.  Import and verification agree.  For every algorithm, the name
    under which [transformJwkToKeyObjectAsync] imports a key is the name
    under which [verifySignatureAsync] verifies with the key object made
    of that key and its JWK; and of the two, one names a digest, and never
    both: the import for RS, the verification for ES. *)
Theorem import_verify_agree alg jwk key :
  let imported := nodeWebCompat.algIdentifier alg jwk in
  let verified :=
    nodeWebCompat.verify_algorithm alg {| key := key; jwk := jwk |} in
  verify_name verified = import_name imported
  ∧ (String.prefix "RS" alg = true →
     import_hash imported = Some ("SHA-" +:+ slice 2 alg)
     ∧ verify_hash verified = None)
  ∧ (String.prefix "ES" alg = true →
     import_hash imported = None
     ∧ verify_hash verified = Some ("SHA-" +:+ slice 2 alg)).
Proof.
  unfold nodeWebCompat.algIdentifier, nodeWebCompat.verify_algorithm. cbn.
  split; [|split].
  - by destruct (String.prefix "RS" alg), (String.prefix "ES" alg).
  - by intros ->.
  - intros HES. destruct (prefix_ES alg HES) as [-> _]. by rewrite HES.
Qed.

End KeyImport.

Lemma import_rsa_and_named_witness :
  let rsa := example_jwk (Some "RS384"%string) None in
  let okp := example_jwk None (Some "Ed25519"%string) in
  (nodeWebCompat.effective_alg rsa None = Some "RS384"%string
   ∧ String.prefix "RS" "RS384" = true
   ∧ @nodeWebCompat.transformJwkToKeyObjectAsync example_environment rsa None
     = @import_with example_environment
         (ImportHashed "RSASSA-PKCS1-v1_5" "SHA-384") rsa)
  ∧ (nodeWebCompat.effective_alg okp (Some "EdDSA"%string)
     = Some "EdDSA"%string
     ∧ "EdDSA"%string ≠ EmptyString
     ∧ String.prefix "RS" "EdDSA" = false
     ∧ String.prefix "ES" "EdDSA" = false
     ∧ @nodeWebCompat.transformJwkToKeyObjectAsync example_environment okp
         (Some "EdDSA"%string)
       = @import_with example_environment
           (ImportNamed (Some "Ed25519"%string)) okp).
Proof.
  intros rsa okp. split.
  - split; [reflexivity|]. split; [reflexivity|].
    exact (proj1 (@import_rsa_and_named example_environment rsa None
                    "RS384"%string eq_refl) eq_refl).
  - split; [reflexivity|]. split; [done|]. split; [reflexivity|].
    split; [reflexivity|].
    exact (proj1 (proj2 (@import_rsa_and_named example_environment okp
                           (Some "EdDSA"%string) "EdDSA"%string eq_refl))
             ltac:(done) eq_refl eq_refl).
Defined.

Lemma import_unknown_ecdsa_witness :
  let jwk := example_jwk (Some "ES256K"%string) (Some "secp256k1"%string) in
  nodeWebCompat.effective_alg jwk None = Some "ES256K"%string
  ∧ String.prefix "ES" "ES256K" = true
  ∧ "ES256K"%string ≠ "ES256"%string
  ∧ "ES256K"%string ≠ "ES384"%string
  ∧ "ES256K"%string ≠ "ES512"%string
  ∧ @nodeWebCompat.transformJwkToKeyObjectAsync example_environment jwk None
    = @import_with example_environment (ImportCurve "ECDSA" None) jwk.
Proof.
  intros jwk. split; [reflexivity|]. split; [reflexivity|].
  split; [done|]. split; [done|]. split; [done|].
  exact (@import_unknown_ecdsa example_environment jwk None "ES256K"%string
           eq_refl eq_refl ltac:(done) ltac:(done) ltac:(done)).
Defined.

Lemma import_empty_jwk_alg_witness :
  let jwk := example_jwk (Some EmptyString) None in
  Jwk.alg jwk = Some EmptyString
  ∧ @nodeWebCompat.transformJwkToKeyObjectAsync example_environment jwk
      (Some "RS256"%string)
    = Throw
        (JwtInvalidSignatureAlgorithmError
           "Missing alg on both JWK and JWT header" (Some EmptyString)).
Proof.
  intros jwk. split; [reflexivity|].
  exact (@import_empty_jwk_alg example_environment jwk
           (Some "RS256"%string) eq_refl).
Defined.

Lemma import_verify_agree_witness :
  String.prefix "RS" "RS256" = true
  ∧ String.prefix "ES" "ES512" = true
  ∧ import_hash
      (nodeWebCompat.algIdentifier "RS256" (example_jwk None None))
    = Some "SHA-256"%string
  ∧ verify_hash
      (nodeWebCompat.verify_algorithm "ES512"
         {| key := crypto_key 0; jwk := example_jwk None None |})
    = Some "SHA-512"%string.
Proof.
  split; [reflexivity|]. split; [reflexivity|]. split.
  - exact (proj1 (proj1 (proj2
             (import_verify_agree "RS256" (example_jwk None None)
                (crypto_key 0))) eq_refl)).
  - exact (proj2 (proj2 (proj2
             (import_verify_agree "ES512" (example_jwk None None)
                (crypto_key 0))) eq_refl)).
Defined.

(** ** More on the fetch *)

Lemma request_signal_init_with_signal requestOptions data h :
  spread requestOptions !! "signal" = None →
  request_signal (init_with_signal requestOptions data h)
  = Some (controllers h).
Proof.
  intros Hsignal. unfold request_signal, init_with_signal.
  rewrite lookup_insert_ne by done.
  rewrite lookup_union_r by done.
  by rewrite lookup_singleton_eq.
Qed.

Lemma timer_delay_overflow k d :
  2 ^ 31 ≤ d < 2 ^ 32 →
  timer_delay k (Num d) = match k with Browser => 0 | NodeJs => 1 end.
Proof.
  intros Hd. destruct k; cbn.
  - unfold ToInt32. rewrite Z.mod_small by lia.
    destruct (Z.ltb_spec d (2 ^ 31)); lia.
  - rewrite decide_False; lia.
Qed.

Section FetchMore.
Context `{Environment}.

(** How the request of a call with a timeout settles, when it listens to
    the signal of the call. *)
Lemma armed_outcome uri n requestOptions data h :
  spread requestOptions !! "signal" = None →
  timers_refer_to_controllers h →
  let init := init_with_signal requestOptions data h in
  let aborted := Some (timer_delay (kind h) n, timeout_error uri n) in
  transport_outcome (armed uri n h) uri init
  = abortable aborted (network h uri init)
      (fun r =>
         match r with
         | NetworkError err => Rejected err
         | Answer status body =>
             Fulfilled
               {| status := status;
                  arrayBuffer := abortable aborted body settle_completion |}
         end).
Proof.
  intros Hsignal Hh init aborted. unfold transport_outcome.
  unfold init. rewrite request_signal_init_with_signal by done.
  unfold armed. cbn [mbind option_bind timers network].
  rewrite first_abort_new by by apply timers_refer_fresh.
  reflexivity.
Qed.

Lemma armed_refers uri n h :
  timers_refer_to_controllers h →
  timers_refer_to_controllers (armed uri n h).
Proof.
  unfold timers_refer_to_controllers, armed. cbn. intros Hh.
  apply Forall_app. split.
  - eapply Forall_impl; [exact Hh|]. intros t. cbn.
    destruct (run t). lia.
  - apply Forall_singleton. cbn. lia.
Qed.

(** X13.  A response within the timeout is delivered.  When a
    [responseTimeout] between 1 and [2 ^ 31 - 1] is supplied, the request
    options hold no [signal] of their own, and the transport has done
    with the request before the timeout has passed (the body of a
    response of status 200 included), the call ends as it does without
    a timeout:
    by the status and the body of the response, or by the error of the
    transport wrapped in a [FetchError].  The timer is not cleared: it
    is still set when the call has ended. *)
Theorem fetch_response_in_time uri requestOptions data h d settled_at r :
  Number (optional_member requestOptions "responseTimeout") = Num d →
  0 < d < 2 ^ 31 →
  spread requestOptions !! "signal" = None →
  timers_refer_to_controllers h →
  (∀ init, network h uri init = Some (settled_at, r)) →
  done_before d (Some (settled_at, r)) →
  let call := nodeWebCompat.fetch uri requestOptions data h in
  call.1
  = match r with
    | NetworkError err => Rejected (FetchError uri (message err))
    | Answer status body =>
        if decide (status = 200) then
          match body with
          | Some (_, Return bytes) => Fulfilled bytes
          | Some (_, Throw err) => Rejected err
          | None => Pending
          end
        else
          Rejected
            (NonRetryableFetchError uri
               ("Status code is " +:+ pretty status +:+ ", expected 200"))
    end
  ∧ timers call.2
    = timers h
      ++ [{| fires_at := d;
             run := AbortWith (controllers h) (timeout_error uri (Num d)) |}].
Proof.
  intros Hn Hd Hsignal Hh Hnet Hin. cbv zeta.
  rewrite fetch_truthy by (rewrite Hn; cbn; apply negb_true_iff; lia).
  rewrite Hn. cbn [fst snd].
  pose proof (timer_delay_in_range (kind h) d Hd) as Hdelay.
  split.
  - pose proof (armed_outcome uri (Num d) requestOptions data h Hsignal Hh)
      as Hout.
    cbv zeta in Hout. unfold init_with_signal in Hout. rewrite Hout.
    rewrite Hnet, Hdelay. unfold abortable at 1.
    destruct r as [err|code body]; cbn [done_before] in Hin.
    + by destruct (Z.leb_spec settled_at d); [|lia].
    + destruct Hin as [Hat Hbody].
      destruct (Z.leb_spec settled_at d); [|lia].
      cbn [settled status arrayBuffer].
      destruct (decide (code = 200)) as [->|Hcode].
      * rewrite decide_False by (intros ?; done).
        specialize (Hbody eq_refl).
        destruct body as [[read_at c]|]; [|done].
        cbn [arrives_before] in Hbody. unfold abortable.
        destruct (Z.leb_spec read_at d); [|lia]. by destruct c.
      * by rewrite decide_True.
  - unfold issued, armed, timeout_error. cbn [timers]. by rewrite Hdelay.
Qed.

(** X22.  The timeout also ends the transfer of the body.  When the
    response of status 200 arrives before the timeout has passed and its
    body does not arrive within the timeout, the timer, which the call has not cleared, aborts the request
    while the body is read: the call is rejected with the time-out error
    itself, the [FetchError] that the timer was given. *)
Theorem fetch_body_timeout uri requestOptions data h d settled_at body :
  Number (optional_member requestOptions "responseTimeout") = Num d →
  0 < d < 2 ^ 31 →
  spread requestOptions !! "signal" = None →
  timers_refer_to_controllers h →
  (∀ init, network h uri init = Some (settled_at, Answer 200 body)) →
  settled_at < d →
  ¬ arrives_within d body →
  let call := nodeWebCompat.fetch uri requestOptions data h in
  call.1
  = Rejected
      (FetchError uri ("Response time-out (after " +:+ pretty d +:+ " ms.)")).
Proof.
  intros Hn Hd Hsignal Hh Hnet Hat Hlate. cbv zeta.
  rewrite fetch_truthy by (rewrite Hn; cbn; apply negb_true_iff; lia).
  rewrite Hn. cbn [fst snd].
  pose proof (armed_outcome uri (Num d) requestOptions data h Hsignal Hh)
    as Hout.
  cbv zeta in Hout. unfold init_with_signal in Hout. rewrite Hout.
  rewrite Hnet, (timer_delay_in_range (kind h) d Hd). unfold abortable at 1.
  destruct (Z.leb_spec settled_at d); [|lia].
  cbn [settled status arrayBuffer]. rewrite decide_False by (intros ?; done).
  unfold timeout_error. rewrite number_to_string_safe by lia.
  unfold abortable.
  destruct body as [[read_at c]|]; [|done].
  cbn [arrives_within] in Hlate.
  by destruct (Z.leb_spec read_at d); [lia|].
Qed.

(** X23.  A timeout from [2 ^ 31] ms on is no timeout of that length.
    The code hands the number to [setTimeout] as it is, and the host
    does not keep a delay that does not fit in 31 bits: up to [2 ^ 32]
    a browser fires the timer at once, and Node.js after 1 ms.  A
    request that the transport has not settled within 1 ms is aborted,
    and the call is rejected with the time-out error. *)
Theorem fetch_timeout_overflow uri requestOptions data h d :
  Number (optional_member requestOptions "responseTimeout") = Num d →
  2 ^ 31 ≤ d < 2 ^ 32 →
  spread requestOptions !! "signal" = None →
  timers_refer_to_controllers h →
  (∀ init, ¬ arrives_within 1 (network h uri init)) →
  let call := nodeWebCompat.fetch uri requestOptions data h in
  call.1 = Rejected (FetchError uri (message (timeout_error uri (Num d))))
  ∧ timers call.2
    = timers h
      ++ [{| fires_at := match kind h with Browser => 0 | NodeJs => 1 end;
             run := AbortWith (controllers h) (timeout_error uri (Num d)) |}].
Proof.
  intros Hn Hd Hsignal Hh Hlate. cbv zeta.
  rewrite fetch_truthy by (rewrite Hn; cbn; apply negb_true_iff; lia).
  rewrite Hn. cbn [fst snd].
  pose proof (timer_delay_overflow (kind h) d Hd) as Hdelay.
  split.
  - pose proof (armed_outcome uri (Num d) requestOptions data h Hsignal Hh)
      as Hout.
    cbv zeta in Hout. unfold init_with_signal in Hout. rewrite Hout.
    specialize (Hlate (init_with_signal requestOptions data h)).
    unfold init_with_signal in Hlate. rewrite Hdelay. unfold abortable.
    destruct (network h uri _) as [[settled_at r]|]; [|done].
    cbn [arrives_within] in Hlate.
    destruct (Z.leb_spec settled_at
                match kind h with Browser => 0 | NodeJs => 1 end);
      [destruct (kind h); lia|done].
  - unfold issued, armed, timeout_error. cbn [timers]. by rewrite Hdelay.
Qed.


(** X15.  The request that a call issues carries the data of the call as
    its [body], also when the options have a [body] of their own and
    when there is no data; every other member of the options but
    [signal] is passed on as it is, and so is a [signal] of the
    options. *)
Theorem fetch_passes_options uri requestOptions data h :
  let call := nodeWebCompat.fetch uri requestOptions data h in
  ∃ init,
    requests call.2 = requests h ++ [(uri, init)]
    ∧ init !! "body" = Some (from_option VBuffer VUndefined data)
    ∧ (∀ member, member ≠ "body"%string → member ≠ "signal"%string →
         init !! member = spread requestOptions !! member)
    ∧ (∀ v, spread requestOptions !! "signal" = Some v →
         init !! "signal" = Some v).
Proof.
  cbv zeta.
  destruct (truthy (Number (optional_member requestOptions "responseTimeout")))
    eqn:Hn.
  - rewrite fetch_truthy by done. cbn [fst snd]. eexists.
    split; [reflexivity|]. split; [by rewrite lookup_insert_eq|]. split.
    + intros member Hbody Hsignal. rewrite lookup_insert_ne by done.
      destruct (spread requestOptions !! member) eqn:Hm.
      * by erewrite lookup_union_Some_l.
      * rewrite lookup_union_r by done. by rewrite lookup_singleton_ne.
    + intros v Hv. rewrite lookup_insert_ne by done.
      by erewrite lookup_union_Some_l.
  - rewrite fetch_falsy by done. cbn [fst snd]. eexists.
    split; [reflexivity|]. split; [by rewrite lookup_insert_eq|]. split.
    + intros member Hbody Hsignal. by rewrite lookup_insert_ne.
    + intros v Hv. by rewrite lookup_insert_ne.
Qed.

(** X16.  What a call leaves of the host: the transport is the same, the
    timers and the requests that were there are still there and in their
    place, no controller is lost, and the timers still refer to
    controllers that exist.  A call adds one request, and at most one
    timer and one controller. *)
Theorem fetch_keeps_host uri requestOptions data h :
  let call := nodeWebCompat.fetch uri requestOptions data h in
  network call.2 = network h
  ∧ timers h `prefix_of` timers call.2
  ∧ (length (timers call.2) ≤ S (length (timers h)))%nat
  ∧ (controllers h ≤ controllers call.2 ≤ S (controllers h))%nat
  ∧ length (requests call.2) = S (length (requests h))
  ∧ requests h `prefix_of` requests call.2
  ∧ (timers_refer_to_controllers h → timers_refer_to_controllers call.2).
Proof.
  cbv zeta.
  destruct (truthy (Number (optional_member requestOptions "responseTimeout")))
    eqn:Hn.
  - rewrite fetch_truthy by done. cbn [fst snd].
    repeat split; cbn; try lia.
    + by apply prefix_app_r.
    + rewrite length_app. cbn. lia.
    + rewrite length_app. cbn. lia.
    + by apply prefix_app_r.
    + intros Hh. by apply (armed_refers uri _ h).
  - rewrite fetch_falsy by done. cbn [fst snd].
    repeat split; cbn; try lia; try done.
    + rewrite length_app. cbn. lia.
    + by apply prefix_app_r.
Qed.

End FetchMore.

Section FetchTwice.
Context `{Environment}.

(** The outcome of a call whose request the transport does not settle
    within the timeout. *)
Lemma fetch_late uri requestOptions data h d :
  Number (optional_member requestOptions "responseTimeout") = Num d →
  0 < d →
  spread requestOptions !! "signal" = None →
  timers_refer_to_controllers h →
  (∀ init, ¬ arrives_within d (network h uri init)) →
  nodeWebCompat.fetch uri requestOptions data h
  = (Rejected (FetchError uri (message (timeout_error uri (Num d)))),
     issued uri (init_with_signal requestOptions data h)
       (armed uri (Num d) h)).
Proof.
  intros Hn Hd Hsignal Hh Hlate.
  rewrite fetch_truthy by (rewrite Hn; cbn; apply negb_true_iff; lia).
  rewrite Hn. f_equal.
  pose proof (armed_outcome uri (Num d) requestOptions data h Hsignal Hh)
    as Hout.
  cbv zeta in Hout. unfold init_with_signal in Hout. rewrite Hout.
  specialize (Hlate (init_with_signal requestOptions data h)).
  unfold init_with_signal in Hlate.
  pose proof (timer_delay_le (kind h) d Hd) as Hdelay. unfold abortable.
  destruct (network h uri _) as [[settled_at r]|]; [|done].
  cbn [arrives_within] in Hlate.
  by destruct (Z.leb_spec settled_at (timer_delay (kind h) (Num d))); [lia|].
Qed.

(** X17.  Two calls, one after the other, each with a timeout of its own
    and no [signal] in its options, against a transport that settles
    neither request in time: each call is rejected with the time-out
    error of its own timeout and URI.  The timer of the first call,
    still set when the second call is made, aborts the controller of the
    first call only, also when it fires first. *)
Theorem fetch_twice uri1 options1 data1 d1 uri2 options2 data2 d2 h :
  Number (optional_member options1 "responseTimeout") = Num d1 →
  Number (optional_member options2 "responseTimeout") = Num d2 →
  0 < d1 → 0 < d2 →
  spread options1 !! "signal" = None →
  spread options2 !! "signal" = None →
  timers_refer_to_controllers h →
  (∀ init, ¬ arrives_within d1 (network h uri1 init)) →
  (∀ init, ¬ arrives_within d2 (network h uri2 init)) →
  let first := nodeWebCompat.fetch uri1 options1 data1 h in
  let second := nodeWebCompat.fetch uri2 options2 data2 first.2 in
  first.1 = Rejected (FetchError uri1 (message (timeout_error uri1 (Num d1))))
  ∧ second.1
    = Rejected (FetchError uri2 (message (timeout_error uri2 (Num d2))))
  ∧ request_signal <$> (snd <$> requests second.2)
    = (request_signal <$> (snd <$> requests h))
      ++ [Some (controllers h); Some (S (controllers h))].
Proof.
  intros Hn1 Hn2 Hd1 Hd2 Hs1 Hs2 Hh Hlate1 Hlate2. cbv zeta.
  rewrite (fetch_late uri1 options1 data1 h d1) by done. cbn [fst snd].
  rewrite (fetch_late uri2 options2 data2 _ d2); try done.
  - cbn [fst snd]. repeat split.
    set (init1 := init_with_signal options1 data1 h).
    set (h1 := issued uri1 init1 (armed uri1 (Num d1) h)).
    set (init2 := init_with_signal options2 data2 h1).
    change (requests (issued uri2 init2 (armed uri2 (Num d2) h1)))
      with ((requests h ++ [(uri1, init1)]) ++ [(uri2, init2)]).
    rewrite !fmap_app, <- app_assoc. f_equal.
    change (request_signal init1 :: request_signal init2 :: []
            = [Some (controllers h); Some (controllers h1)]).
    unfold init1, init2.
    by rewrite !request_signal_init_with_signal.
  - by apply (armed_refers uri1 (Num d1) h).
Qed.

End FetchTwice.

(** ** The further properties of the fetch on concrete inputs *)

Lemma fetch_response_in_time_witness :
  let uri := "https://issuer.example/.well-known/jwks.json"%string in
  let requestOptions : option (gmap string jsval) :=
    Some {[ "responseTimeout"%string := VNumber (Num 3000) ]} in
  let body := Some (40, Return [123; 125]) in
  let h := answering_host 200 body in
  @Number example_environment
    (optional_member requestOptions "responseTimeout") = Num 3000
  ∧ 0 < 3000 < 2 ^ 31
  ∧ spread requestOptions !! "signal"%string = None
  ∧ timers_refer_to_controllers h
  ∧ (∀ init, network h uri init = Some (20, Answer 200 body))
  ∧ done_before 3000 (Some (20, Answer 200 body))
  ∧ (@nodeWebCompat.fetch example_environment uri requestOptions None h).1
    = Fulfilled [123; 125].
Proof.
  intros uri requestOptions body h.
  assert (Hn : @Number example_environment
                 (optional_member requestOptions "responseTimeout") = Num 3000)
    by reflexivity.
  assert (Hsignal : spread requestOptions !! "signal"%string = None)
    by reflexivity.
  assert (Hh : timers_refer_to_controllers h) by apply List.Forall_nil.
  assert (Hnet : ∀ init, network h uri init = Some (20, Answer 200 body))
    by reflexivity.
  assert (Hin : done_before 3000 (Some (20, Answer 200 body)))
    by (cbn; lia).
  do 6 (split; [done|]).
  exact (proj1 (@fetch_response_in_time example_environment uri
                  requestOptions None h 3000 20 (Answer 200 body)
                  Hn ltac:(done) Hsignal Hh Hnet Hin)).
Defined.

(** A response after 20 ms whose body takes 5000 ms, against a timeout
    of 3000 ms. *)
Lemma fetch_body_timeout_witness :
  let uri := "https://issuer.example/.well-known/jwks.json"%string in
  let requestOptions : option (gmap string jsval) :=
    Some {[ "responseTimeout"%string := VNumber (Num 3000) ]} in
  let body := Some (5000, Return [123; 125]) in
  let h := answering_host 200 body in
  @Number example_environment
    (optional_member requestOptions "responseTimeout") = Num 3000
  ∧ 0 < 3000 < 2 ^ 31
  ∧ spread requestOptions !! "signal"%string = None
  ∧ timers_refer_to_controllers h
  ∧ (∀ init, network h uri init = Some (20, Answer 200 body))
  ∧ 20 < 3000
  ∧ ¬ arrives_within 3000 body
  ∧ (@nodeWebCompat.fetch example_environment uri requestOptions None h).1
    = Rejected (FetchError uri "Response time-out (after 3000 ms.)").
Proof.
  intros uri requestOptions body h.
  assert (Hn : @Number example_environment
                 (optional_member requestOptions "responseTimeout") = Num 3000)
    by reflexivity.
  assert (Hsignal : spread requestOptions !! "signal"%string = None)
    by reflexivity.
  assert (Hh : timers_refer_to_controllers h) by apply List.Forall_nil.
  assert (Hnet : ∀ init, network h uri init = Some (20, Answer 200 body))
    by reflexivity.
  assert (Hlate : ¬ arrives_within 3000 body) by (cbn; lia).
  do 7 (split; [done|]).
  exact (@fetch_body_timeout example_environment uri requestOptions None h
           3000 20 body Hn ltac:(done) Hsignal Hh Hnet ltac:(done) Hlate).
Defined.

(** A timeout of [2 ^ 31] ms against a transport that answers after
    20 ms. *)
Lemma fetch_timeout_overflow_witness :
  let uri := "https://issuer.example/.well-known/jwks.json"%string in
  let requestOptions : option (gmap string jsval) :=
    Some {[ "responseTimeout"%string := VNumber (Num 2147483648) ]} in
  let h := answering_host 200 (Some (40, Return [123; 125])) in
  @Number example_environment
    (optional_member requestOptions "responseTimeout") = Num 2147483648
  ∧ 2 ^ 31 ≤ 2147483648 < 2 ^ 32
  ∧ spread requestOptions !! "signal"%string = None
  ∧ timers_refer_to_controllers h
  ∧ (∀ init, ¬ arrives_within 1 (network h uri init))
  ∧ (@nodeWebCompat.fetch example_environment uri requestOptions None h).1
    = Rejected (FetchError uri "Response time-out (after 2147483648 ms.)").
Proof.
  intros uri requestOptions h.
  assert (Hn : @Number example_environment
                 (optional_member requestOptions "responseTimeout")
               = Num 2147483648)
    by reflexivity.
  assert (Hsignal : spread requestOptions !! "signal"%string = None)
    by reflexivity.
  assert (Hh : timers_refer_to_controllers h) by apply List.Forall_nil.
  assert (Hlate : ∀ init, ¬ arrives_within 1 (network h uri init))
    by (intros init; cbn; lia).
  do 5 (split; [done|]).
  exact (proj1 (@fetch_timeout_overflow example_environment uri
                  requestOptions None h 2147483648 Hn ltac:(done) Hsignal Hh
                  Hlate)).
Defined.

(** The three outcomes against a transport that is not aborted: there is
    no timer, and the request listens to no signal. *)
Lemma fetch_follows_transport_witness :
  let uri := "https://issuer.example/.well-known/jwks.json"%string in
  let body := Some (40, Return [123; 125]) in
  let h := answering_host 200 body in
  (@nodeWebCompat.fetch example_environment uri None None h).1
  = Fulfilled [123; 125].
Proof.
  intros uri body h.
  destruct (@fetch_follows_transport example_environment uri None None h)
    as (init & Hlog & _ & Htimers & Hout).
  specialize (Hout 20 (Answer 200 body) eq_refl).
  rewrite Htimers in Hout.
  injection Hlog as <-.
  exact (Hout I 40 (Return [123; 125]) eq_refl I).
Defined.


Lemma fetch_passes_options_witness :
  let uri := "https://issuer.example/.well-known/jwks.json"%string in
  let requestOptions : option (gmap string jsval) :=
    Some {[ "body"%string := VString "ignored";
            "method"%string := VString "GET" ]} in
  let call :=
    @nodeWebCompat.fetch example_environment uri requestOptions None
      silent_host in
  ∃ init,
    requests call.2 = [(uri, init)]
    ∧ init !! "body"%string = Some VUndefined
    ∧ init !! "method"%string = Some (VString "GET").
Proof.
  intros uri requestOptions call.
  destruct (@fetch_passes_options example_environment uri requestOptions
              None silent_host) as (init & Hlog & Hbody & Hother & _).
  exists init. split; [exact Hlog|]. split; [exact Hbody|].
  exact (Hother "method"%string ltac:(done) ltac:(done)).
Defined.

Lemma fetch_keeps_host_witness :
  let uri := "https://issuer.example/.well-known/jwks.json"%string in
  let requestOptions : option (gmap string jsval) :=
    Some {[ "responseTimeout"%string := VNumber (Num 3000) ]} in
  timers_refer_to_controllers silent_host
  ∧ timers_refer_to_controllers
      (@nodeWebCompat.fetch example_environment uri requestOptions None
         silent_host).2.
Proof.
  intros uri requestOptions.
  assert (Hh : timers_refer_to_controllers silent_host)
    by apply List.Forall_nil.
  split; [exact Hh|].
  exact (proj2 (proj2 (proj2 (proj2 (proj2 (proj2
           (@fetch_keeps_host example_environment uri requestOptions None
              silent_host)))))) Hh).
Defined.

(** A first call with a timeout of 5000 ms and a second with 1000 ms:
    the timer of the second fires first. *)
Lemma fetch_twice_witness :
  let uri1 := "https://one.example/jwks.json"%string in
  let uri2 := "https://two.example/jwks.json"%string in
  let options1 : option (gmap string jsval) :=
    Some {[ "responseTimeout"%string := VNumber (Num 5000) ]} in
  let options2 : option (gmap string jsval) :=
    Some {[ "responseTimeout"%string := VNumber (Num 1000) ]} in
  let first :=
    @nodeWebCompat.fetch example_environment uri1 options1 None silent_host in
  let second :=
    @nodeWebCompat.fetch example_environment uri2 options2 None first.2 in
  @Number example_environment (optional_member options1 "responseTimeout")
  = Num 5000
  ∧ @Number example_environment (optional_member options2 "responseTimeout")
    = Num 1000
  ∧ 0 < 5000 ∧ 0 < 1000
  ∧ spread options1 !! "signal"%string = None
  ∧ spread options2 !! "signal"%string = None
  ∧ timers_refer_to_controllers silent_host
  ∧ (∀ init, ¬ arrives_within 5000 (network silent_host uri1 init))
  ∧ (∀ init, ¬ arrives_within 1000 (network silent_host uri2 init))
  ∧ first.1
    = Rejected (FetchError uri1 "Response time-out (after 5000 ms.)")
  ∧ second.1
    = Rejected (FetchError uri2 "Response time-out (after 1000 ms.)").
Proof.
  intros uri1 uri2 options1 options2 first second.
  assert (Hn1 : @Number example_environment
                  (optional_member options1 "responseTimeout") = Num 5000)
    by reflexivity.
  assert (Hn2 : @Number example_environment
                  (optional_member options2 "responseTimeout") = Num 1000)
    by reflexivity.
  assert (Hs1 : spread options1 !! "signal"%string = None) by reflexivity.
  assert (Hs2 : spread options2 !! "signal"%string = None) by reflexivity.
  assert (Hh : timers_refer_to_controllers silent_host)
    by apply List.Forall_nil.
  assert (Hl1 : ∀ init, ¬ arrives_within 5000 (network silent_host uri1 init))
    by (intros init []).
  assert (Hl2 : ∀ init, ¬ arrives_within 1000 (network silent_host uri2 init))
    by (intros init []).
  do 9 (split; [done|]).
  destruct (@fetch_twice example_environment uri1 options1 None 5000
              uri2 options2 None 1000 silent_host
              Hn1 Hn2 ltac:(done) ltac:(done) Hs1 Hs2 Hh Hl1 Hl2)
    as (Hfirst & Hsecond & _).
  split; [exact Hfirst | exact Hsecond].
Defined.

(** ** The utilities of the tests *)

Lemma swap_first_byte_cons x rest :
  0 ≤ x < 256 →
  TestUtil.swap_first_byte (x :: rest) = (255 - x) :: rest.
Proof.
  intros Hx. unfold TestUtil.swap_first_byte, uint8_store, js_not, ToUint8.
  cbn [lookup list_lookup int32_operand insert list_insert].
  f_equal.
  assert (HI : ToInt32 x = x).
  { unfold ToInt32. rewrite Z.mod_small by lia.
    destruct (Z.ltb_spec x (2 ^ 31)); lia. }
  rewrite HI, HI. unfold Z.lnot, Z.pred.
  replace (- x + -1) with (255 - x + -1 * 256) by lia.
  rewrite Z.mod_add by lia. apply Z.mod_small. lia.
Qed.

Lemma swap_first_byte_bytes signature :
  byte_sequence signature →
  byte_sequence (TestUtil.swap_first_byte signature).
Proof.
  unfold byte_sequence, TestUtil.swap_first_byte, uint8_store.
  intros Hs. apply Forall_insert; [done|apply ToUint8_range].
Qed.

Lemma swap_first_byte_nonempty signature :
  signature ≠ [] → TestUtil.swap_first_byte signature ≠ [].
Proof. by destruct signature. Qed.

Section SignJwt.
Context `{TestRuntime}.

Lemma base64url_of_text_JSON object :
  let text := JSON_stringify object in
  base64url_string (TestUtil.base64url_of_text text)
  ∧ TestUtil.base64url_of_text text ≠ EmptyString
  ∧ bufferFromBase64url (TestUtil.base64url_of_text text)
    = Return (Buffer_from text).
Proof.
  cbv zeta. unfold TestUtil.base64url_of_text.
  pose proof (Buffer_from_bytes (JSON_stringify object)) as Hb.
  pose proof (JSON_stringify_text object) as Hne.
  split; [by apply encodeBase64Url_alphabet|].
  split; [by apply encodeBase64Url_nonempty|].
  rewrite <- (append_empty_r (encodeBase64Url _)).
  by apply bufferFromBase64url_encoding; auto.
Qed.

(** The signature that ends up in the token. *)
Lemma signJwt_Return header payload privateKey produceValidSignature
    signature :
  createSign_sign
    (TestUtil.digest_of
       (default VUndefined (TestUtil.signed_header header !! "alg")))
    (TestUtil.toSign header payload) privateKey
  = Return signature →
  TestUtil.signJwt header payload privateKey produceValidSignature
  = Return
      (TestUtil.toSign header payload +:+ "."
       +:+ encodeBase64Url
             (if default true produceValidSignature then signature
              else TestUtil.swap_first_byte signature)).
Proof. intros Hsign. unfold TestUtil.signJwt. cbv zeta. by rewrite Hsign. Qed.

(** X18.  The token of [signJwt] is made of three parts with a dot
    between them, each of them a text of the base64url alphabet that is
    not empty (so without a dot and without padding).  The decoder of
    the web layer gives back, from the first part, the bytes of the JSON
    text of the header with its [alg] (RS256 when the header given has
    none), and from the second the bytes of the JSON text of the payload
    with its [exp] (a hundred seconds from now when the payload given
    has none). *)
Theorem signJwt_token header payload privateKey produceValidSignature
    signature :
  createSign_sign
    (TestUtil.digest_of
       (default VUndefined (TestUtil.signed_header header !! "alg")))
    (TestUtil.toSign header payload) privateKey
  = Return signature →
  signature ≠ [] →
  ∃ header64 payload64 signature64,
    TestUtil.signJwt header payload privateKey produceValidSignature
    = Return ((header64 +:+ "." +:+ payload64) +:+ "." +:+ signature64)
    ∧ (base64url_string header64 ∧ header64 ≠ EmptyString)
    ∧ (base64url_string payload64 ∧ payload64 ≠ EmptyString)
    ∧ (base64url_string signature64 ∧ signature64 ≠ EmptyString)
    ∧ bufferFromBase64url header64
      = Return
          (Buffer_from
             (JSON_stringify
                (<[ "alg" := default (VString "RS256") (header !! "alg") ]>
                   header)))
    ∧ bufferFromBase64url payload64
      = Return
          (Buffer_from
             (JSON_stringify
                (<[ "exp" := default (VNumber (Num (Date_now / 1000 + 100)))
                               (payload !! "exp") ]> payload))).
Proof.
  intros Hsign Hne.
  pose proof (createSign_sign_bytes _ _ _ _ Hsign) as Hb.
  rewrite (signJwt_Return _ _ _ _ _ Hsign).
  destruct (base64url_of_text_JSON (TestUtil.signed_header header))
    as (Hh1 & Hh2 & Hh3).
  destruct (base64url_of_text_JSON (TestUtil.signed_payload payload))
    as (Hp1 & Hp2 & Hp3).
  eexists _, _, _. split; [reflexivity|].
  split; [done|]. split; [done|]. split; [|split].
  - destruct (default true produceValidSignature).
    + split; [by apply encodeBase64Url_alphabet
             |by apply encodeBase64Url_nonempty].
    + split; [apply encodeBase64Url_alphabet, swap_first_byte_bytes, Hb
             |apply encodeBase64Url_nonempty, swap_first_byte_nonempty, Hne].
  - rewrite Hh3. unfold TestUtil.signed_header.
    by destruct (header !! "alg").
  - rewrite Hp3. do 3 f_equal. unfold TestUtil.signed_payload.
    apply map_eq. intros k.
    destruct (decide (k = "exp"%string)) as [->|Hk].
    + rewrite lookup_insert_eq.
      destruct (payload !! "exp"%string) eqn:Hexp.
      * by erewrite lookup_union_Some_l.
      * rewrite lookup_union_r by done. by rewrite lookup_singleton_eq.
    + rewrite lookup_insert_ne by done.
      destruct (payload !! k) eqn:Hpk.
      * by erewrite lookup_union_Some_l.
      * rewrite lookup_union_r by done. by rewrite lookup_singleton_ne.
Qed.

(** X19.  A token asked for with [produceValidSignature] false is not
    the token asked for with true, or by default: its signature part is
    that of the signature of the signer with the first byte [b] turned
    into [255 - b], and the other bytes as they are. *)
Theorem signJwt_tampered header payload privateKey b rest :
  createSign_sign
    (TestUtil.digest_of
       (default VUndefined (TestUtil.signed_header header !! "alg")))
    (TestUtil.toSign header payload) privateKey
  = Return (b :: rest) →
  TestUtil.signJwt header payload privateKey (Some false)
  = Return
      (TestUtil.toSign header payload +:+ "."
       +:+ encodeBase64Url ((255 - b) :: rest))
  ∧ bufferFromBase64url (encodeBase64Url ((255 - b) :: rest))
    = Return ((255 - b) :: rest)
  ∧ TestUtil.signJwt header payload privateKey (Some false)
    ≠ TestUtil.signJwt header payload privateKey (Some true)
  ∧ TestUtil.signJwt header payload privateKey (Some true)
    = TestUtil.signJwt header payload privateKey None.
Proof.
  intros Hsign.
  pose proof (createSign_sign_bytes _ _ _ _ Hsign) as Hb.
  assert (Hrange : 0 ≤ b < 256) by by apply Forall_cons in Hb as [? _].
  pose proof (swap_first_byte_cons b rest Hrange) as Hswap.
  assert (Hb' : byte_sequence ((255 - b) :: rest)).
  { rewrite <- Hswap. by apply swap_first_byte_bytes. }
  assert (Hdecode : ∀ bytes, bytes ≠ [] → byte_sequence bytes →
            bufferFromBase64url (encodeBase64Url bytes) = Return bytes).
  { intros bytes Hne Hbytes.
    rewrite <- (append_empty_r (encodeBase64Url bytes)).
    by apply bufferFromBase64url_encoding; auto. }
  rewrite !(signJwt_Return _ _ _ _ _ Hsign). cbn [default]. rewrite Hswap.
  split; [done|]. split; [by apply Hdecode|]. split; [|done].
  intros [= Heq]. do 2 apply String.app_inj in Heq.
  apply (f_equal bufferFromBase64url) in Heq.
  rewrite !Hdecode in Heq by done.
  injection Heq as Heq. lia.
Qed.

End SignJwt.

Section SignAndVerify.
Context `{Environment} `{TestRuntime}.

(** X20.  From the signer of the tests to the verification of the web
    layer.  Given the two first parts of a token of [signJwt] as the
    signing input and its third part as the signature,
    [verifySignatureAsync] asks the host to verify the very bytes that
    the signer made (with the first byte swapped when the token was
    asked for with [produceValidSignature] false), over the bytes of the
    text that was signed. *)
Theorem signJwt_verifySignatureAsync header payload privateKey
    produceValidSignature signature alg keyObject :
  createSign_sign
    (TestUtil.digest_of
       (default VUndefined (TestUtil.signed_header header !! "alg")))
    (TestUtil.toSign header payload) privateKey
  = Return signature →
  signature ≠ [] →
  ∃ signature64,
    TestUtil.signJwt header payload privateKey produceValidSignature
    = Return (TestUtil.toSign header payload +:+ "." +:+ signature64)
    ∧ nodeWebCompat.verifySignatureAsync
        {| jwsSigningInput := TestUtil.toSign header payload;
           keyObject := keyObject;
           signature := signature64;
           alg := alg |}
      = Return
          (subtle_verify (nodeWebCompat.verify_algorithm alg keyObject)
             (key keyObject)
             (if default true produceValidSignature then signature
              else TestUtil.swap_first_byte signature)
             (TextEncoder_encode (TestUtil.toSign header payload))).
Proof.
  intros Hsign Hne.
  pose proof (createSign_sign_bytes _ _ _ _ Hsign) as Hb.
  rewrite (signJwt_Return _ _ _ _ _ Hsign).
  eexists. split; [reflexivity|].
  unfold nodeWebCompat.verifySignatureAsync. cbv zeta.
  cbn -[bufferFromBase64url encodeBase64Url].
  rewrite <- (append_empty_r (encodeBase64Url _)).
  rewrite bufferFromBase64url_encoding; [done| | |by left].
  - destruct (default true produceValidSignature);
      [done|by apply swap_first_byte_nonempty].
  - destruct (default true produceValidSignature);
      [done|by apply swap_first_byte_bytes].
Qed.

(** X21.  From the keys of the tests to the import of the web layer.
    For options whose [alg] is given or missing (and not set to
    [undefined]), the JWK of [generateKeyPair] is imported by
    [transformJwkToKeyObjectAsync], whatever the algorithm of the JWT
    header, for the kind of key that was generated: under the name ECDSA
    and on the curve that was asked of the generator for an EC key,
    under the name RSASSA-PKCS1-v1_5 with a digest SHA-256, SHA-384 or
    SHA-512 for an RSA key. *)
Theorem generateKeyPair_import options jwtHeaderAlg :
  TestUtil.options_alg options ≠ TestUtil.Member None →
  let pair := TestUtil.generateKeyPair (Some options) in
  match TestUtil.key_generation options with
  | GenerateEc namedCurve =>
      is_Some namedCurve
      ∧ nodeWebCompat.transformJwkToKeyObjectAsync (TestUtil.jwk pair)
          jwtHeaderAlg
        = import_with (ImportCurve "ECDSA" namedCurve) (TestUtil.jwk pair)
  | GenerateRsa modulusLength publicExponent =>
      modulusLength = 4096 ∧ publicExponent = 65537
      ∧ ∃ hash,
          hash ∈ ["SHA-256"; "SHA-384"; "SHA-512"]%string
          ∧ nodeWebCompat.transformJwkToKeyObjectAsync (TestUtil.jwk pair)
              jwtHeaderAlg
            = import_with (ImportHashed "RSASSA-PKCS1-v1_5" hash)
                (TestUtil.jwk pair)
  end
  ∧ TestUtil.keys (TestUtil.jwks pair) = [TestUtil.jwk pair].
Proof.
  intros Halg. cbv zeta. unfold TestUtil.generateKeyPair.
  cbn [from_option]. unfold id.
  destruct (generateKeyPairSync (TestUtil.key_generation options))
    as [privateKey publicKey].
  cbn [TestUtil.jwk TestUtil.jwks TestUtil.keys]. split; [|reflexivity].
  unfold nodeWebCompat.transformJwkToKeyObjectAsync.
  destruct options as [[|[[]|]] kid use | [|[[]|]] kid use];
    cbn in Halg; try done; cbn.
  all: try (split; [by eexists|reflexivity]).
  all: split; [done|]; split; [done|]; eexists; split; [|reflexivity].
  all: set_solver.
Qed.

End SignAndVerify.

(** ** The utilities of the tests on concrete inputs *)

Example signJwt_example :
  @TestUtil.signJwt example_runtime ∅ ∅ (key_object 0) None
  = Return "e30.e30.AQID"%string.
Proof. reflexivity. Qed.

Lemma signJwt_token_witness :
  @createSign_sign example_runtime
    (TestUtil.digest_of
       (default VUndefined (TestUtil.signed_header ∅ !! "alg"%string)))
    (@TestUtil.toSign example_runtime ∅ ∅) (key_object 0)
  = Return [1; 2; 3]
  ∧ [1; 2; 3] ≠ []
  ∧ ∃ header64 payload64 signature64,
      @TestUtil.signJwt example_runtime ∅ ∅ (key_object 0) None
      = Return ((header64 +:+ "." +:+ payload64) +:+ "." +:+ signature64)
      ∧ base64url_string header64
      ∧ base64url_string payload64
      ∧ base64url_string signature64.
Proof.
  split; [reflexivity|]. split; [done|].
  destruct (@signJwt_token example_runtime ∅ ∅ (key_object 0) None
              [1; 2; 3] eq_refl ltac:(done))
    as (h & p & s & Hjwt & [Hh _] & [Hp _] & [Hs _] & _).
  exists h, p, s. split; [exact Hjwt|]. split; [exact Hh|].
  split; [exact Hp | exact Hs].
Defined.

Lemma signJwt_tampered_witness :
  @createSign_sign example_runtime
    (TestUtil.digest_of
       (default VUndefined (TestUtil.signed_header ∅ !! "alg"%string)))
    (@TestUtil.toSign example_runtime ∅ ∅) (key_object 0)
  = Return [1; 2; 3]
  ∧ @TestUtil.signJwt example_runtime ∅ ∅ (key_object 0) (Some false)
    = Return "e30.e30._gID"%string.
Proof.
  split; [reflexivity|].
  exact (proj1 (@signJwt_tampered example_runtime ∅ ∅ (key_object 0)
                  1 [2; 3] eq_refl)).
Defined.

Lemma signJwt_verifySignatureAsync_witness :
  let keyObject := {| key := crypto_key 0; jwk := example_jwk None None |} in
  @createSign_sign example_runtime
    (TestUtil.digest_of
       (default VUndefined (TestUtil.signed_header ∅ !! "alg"%string)))
    (@TestUtil.toSign example_runtime ∅ ∅) (key_object 0)
  = Return [1; 2; 3]
  ∧ [1; 2; 3] ≠ []
  ∧ ∃ signature64,
      @TestUtil.signJwt example_runtime ∅ ∅ (key_object 0) (Some false)
      = Return ("e30.e30" +:+ "." +:+ signature64)
      ∧ @nodeWebCompat.verifySignatureAsync example_environment
          {| jwsSigningInput := "e30.e30";
             keyObject := keyObject;
             signature := signature64;
             alg := "RS256" |}
        = Return
            (@subtle_verify example_environment
               (VerifyNamed (Some "RSASSA-PKCS1-v1_5"%string))
               (crypto_key 0) [254; 2; 3]
               (@TextEncoder_encode example_environment "e30.e30")).
Proof.
  intros keyObject. split; [reflexivity|]. split; [done|].
  exact (@signJwt_verifySignatureAsync example_environment example_runtime
           ∅ ∅ (key_object 0) (Some false) [1; 2; 3] "RS256"%string
           keyObject eq_refl ltac:(done)).
Defined.

Lemma generateKeyPair_import_witness :
  let options :=
    TestUtil.EcOptions (TestUtil.Member (Some TestUtil.ES512))
      TestUtil.Missing TestUtil.Missing in
  let pair := @TestUtil.generateKeyPair example_runtime (Some options) in
  TestUtil.options_alg options ≠ TestUtil.Member None
  ∧ TestUtil.key_generation options = GenerateEc (Some "P-521"%string)
  ∧ @nodeWebCompat.transformJwkToKeyObjectAsync example_environment
      (TestUtil.jwk pair) (Some "RS256"%string)
    = @import_with example_environment
        (ImportCurve "ECDSA" (Some "P-521"%string)) (TestUtil.jwk pair).
Proof.
  intros options pair.
  assert (Halg : TestUtil.options_alg options ≠ TestUtil.Member None)
    by discriminate.
  split; [exact Halg|]. split; [reflexivity|].
  exact (proj2 (proj1 (@generateKeyPair_import example_environment
                         example_runtime options (Some "RS256"%string)
                         Halg))).
Defined.
